(** * Market-Pulse: the request handler of [src/index.js]

    A shallow embedding of the Express backend: the three upstream clients
    ([getHistoricalData], [getNewsData], [getGeminiAnalysis]), the in-memory
    [cache] and the handler of [GET /market-pulse/:ticker].

    - JS values that travel through the handler (payloads decoded by axios,
      the object returned by [JSON.parse]) are terms of [value].
    - The built-in routines of the JavaScript runtime that the source calls
      but does not define (case mapping, number parsing and printing,
      [JSON.parse], ISO dates) are the fields of the class [Engine]; every
      theorem holds for every engine.
    - An [async] function is a computation that either fulfils or rejects and
      that records, in order, which client was entered and which HTTP request
      was issued.
    - The cache is a finite map from ticker to entry, threaded through the
      handler.  Calls to [console.log] and [console.error] are not modelled. *)

From Stdlib Require Import ZArith Floats Ascii String DecimalString List Lia.
From stdpp Require Import gmap strings list.

Local Set Warnings "-register-all".
Local Open Scope string_scope.
Local Open Scope Z_scope.
Local Open Scope list_scope.

(** ** JavaScript values *)

(** Numbers are IEEE binary64, as in the language. An object is the list of
    its own properties in insertion order. A string stands for the JS string
    whose UTF-8 encoding it is, so printable ASCII is one character per code
    unit. *)
Inductive value : Type :=
| VUndefined
| VNull
| VBool (b : bool)
| VNum (n : float)
| VStr (s : string)
| VArr (items : list value)
| VObj (props : list (string * value)).

(** The built-in routines of the runtime that the source calls, each taken
    as a function of its argument: [s.toUpperCase()], the number a value
    converts to for [>], [parseFloat(v)], [n.toFixed(digits)],
    [JSON.parse(v)] ([None] where it throws a [SyntaxError]) and
    [new Date(ms).toISOString()]. *)
Class Engine : Type := {
  toUpperCase : string → string;
  ToNumber : value → float;
  parseFloat : value → float;
  toFixed : float → nat → string;
  JSON_parse : value → option value;
  toISOString : Z → string
}.

(** [ToBoolean]: what [!v], [a && b] and [a || b] test. *)
Definition truthy (v : value) : bool :=
  match v with
  | VUndefined | VNull => false
  | VBool b => b
  | VNum n => negb (is_zero n || is_nan n)
  | VStr s => negb (String.eqb s "")
  | VArr _ | VObj _ => true
  end.

Definition nullish (v : value) : bool :=
  match v with
  | VUndefined | VNull => true
  | _ => false
  end.

(** ** Errors and asynchronous computations *)

(** A thrown [Error]. An error raised by axios for a non-success status also
    carries the decoded body of the response ([error.response.data]). *)
Record error : Type := Error {
  message : string;
  response : option value
}.

Definition new_Error (msg : string) : error :=
  {| message := msg; response := None |}.

(** V8's wording for a property read on [undefined] or [null]. *)
Definition TypeError_read (v : value) (name : string) : error :=
  new_Error ("Cannot read properties of "
             +:+ (match v with VNull => "null" | _ => "undefined" end)
             +:+ " (reading '" +:+ name +:+ "')").

Definition TypeError_not_a_function (what : string) : error :=
  new_Error (what +:+ " is not a function").

(** What the prompt sent to the model is built from: the template of the
    source is fixed, its two holes are the ticker and the recent data. *)
Record prompt : Type := Prompt {
  prompt_ticker : string;
  prompt_recentData : list value
}.

Inductive event : Type :=
| Entered_getHistoricalData (ticker : string)
| Entered_getNewsData (ticker : string)
| Entered_getGeminiAnalysis (ticker : string) (historicalData : value)
| HttpGet (url : string)
| HttpPost (url : string) (body : prompt).

(** The events of the sentiment client. *)
Definition sentiment_event (ev : event) : bool :=
  match ev with
  | Entered_getGeminiAnalysis _ _ | HttpPost _ _ => true
  | _ => false
  end.

Inductive settled (A : Type) : Type :=
| Fulfilled (a : A)
| Rejected (e : error).
Arguments Fulfilled {A} a.
Arguments Rejected {A} e.

(** The outcome of an [async] function together with the events it caused. *)
Definition async (A : Type) : Type := settled A * list event.

Definition ret {A} (a : A) : async A := (Fulfilled a, []).

Definition throw {A} (e : error) : async A := (Rejected e, []).

Definition emit (ev : event) : async unit := (Fulfilled tt, [ev]).

Definition bind {A B} (m : async A) (k : A → async B) : async B :=
  match m with
  | (Fulfilled a, t) => let '(r, t') := k a in (r, t ++ t')
  | (Rejected e, t) => (Rejected e, t)
  end.

(** [try { m } catch (error) { h error }] *)
Definition try_catch {A} (m : async A) (h : error → async A) : async A :=
  match m with
  | (Fulfilled a, t) => (Fulfilled a, t)
  | (Rejected e, t) => let '(r, t') := h e in (r, t ++ t')
  end.

(** [Promise.all([p, q])] of two computations that were both started, [p]
    first. It rejects with the error of the first promise to reject; when
    both reject here they do so before their first [await], in call order. *)
Definition Promise_all2 {A B} (p : async A) (q : async B) : async (A * B) :=
  match p, q with
  | (Fulfilled a, t), (Fulfilled b, t') => (Fulfilled (a, b), t ++ t')
  | (Rejected e, t), (_, t') => (Rejected e, t ++ t')
  | (Fulfilled _, t), (Rejected e, t') => (Rejected e, t ++ t')
  end.

Declare Scope async_scope.
Delimit Scope async_scope with async.
Notation "x <- m ;; k" := (bind m (fun x => k))
  (at level 100, m at next level, right associativity) : async_scope.
Notation "m ;;; k" := (bind m (fun _ => k))
  (at level 100, right associativity) : async_scope.
Local Open Scope async_scope.

(** ** Reading properties *)

Definition own_property (props : list (string * value)) (name : string) : value :=
  match find (fun p => String.eqb (fst p) name) props with
  | Some (_, v) => v
  | None => VUndefined
  end.

(** [v.name] for the names this program reads ([historical], [candidates],
    [content], [parts], [text], [error], [date], [close], [volume], [pulse],
    [reason], [confidence]): none of them is defined on the prototype of
    objects, arrays, strings, numbers or booleans, so the read yields an own
    property or [undefined], and throws on [undefined] and [null]. *)
Definition get_field (v : value) (name : string) : async value :=
  match v with
  | VUndefined | VNull => throw (TypeError_read v name)
  | VObj props => ret (own_property props name)
  | _ => ret VUndefined
  end.

(** [v[0]]. On a string it is the string of its first code unit, here its
    first character; nothing below depends on which. *)
Definition get_index0 (v : value) : async value :=
  match v with
  | VUndefined | VNull => throw (TypeError_read v "0")
  | VArr items => ret (default VUndefined (head items))
  | VStr (String c _) => ret (VStr (String c EmptyString))
  | VObj props => ret (own_property props "0")
  | _ => ret VUndefined
  end.

Section Arrays.
Context `{Engine}.

(** [v.length > 0] for a [v] that is not [undefined] or [null]: an array has
    a positive length when it has an element, a string when it has a code
    unit; an object is asked for its own property [length], which is then
    compared as a number; numbers and booleans have no length, and
    [undefined > 0] is false. *)
Definition length_gt_zero (v : value) : bool :=
  match v with
  | VArr items => negb (bool_decide (items = []))
  | VStr s => negb (String.eqb s "")
  | VObj props => (0 <? ToNumber (own_property props "length"))%float
  | _ => false
  end.

End Arrays.

(** [v.slice(0, 20)], where [what] is the text of the receiver in the source
    (it appears in V8's message when [slice] is not callable). Arrays and
    strings have a [slice]; a sliced string then has no [map]. *)
Definition slice_0_20 (what : string) (v : value) : async value :=
  match v with
  | VUndefined | VNull => throw (TypeError_read v "slice")
  | VArr items => ret (VArr (take 20 items))
  | VStr s => ret (VStr (substring 0 20 s))
  | _ => throw (TypeError_not_a_function (what +:+ ".slice"))
  end.

Fixpoint for_each {A B} (f : A → async B) (l : list A) : async (list B) :=
  match l with
  | [] => ret []
  | x :: rest => y <- f x ;; ys <- for_each f rest ;; ret (y :: ys)
  end.

(** [v.map(f)]: only arrays have a callable [map]. *)
Definition array_map (what : string) (f : value → async value) (v : value)
  : async (list value) :=
  match v with
  | VUndefined | VNull => throw (TypeError_read v "map")
  | VArr items => for_each f items
  | _ => throw (TypeError_not_a_function (what +:+ ".map"))
  end.

(** ** The ticker grammar *)

(** The character class [[A-Z0-9.-]]. *)
Definition in_class_AZ_09_dot_dash (c : ascii) : bool :=
  let n := nat_of_ascii c in
  ((65 <=? n) && (n <=? 90) || (48 <=? n) && (n <=? 57)
   || (n =? 46) || (n =? 45))%nat.

Fixpoint all_in_class (s : string) : bool :=
  match s with
  | EmptyString => true
  | String c rest => in_class_AZ_09_dot_dash c && all_in_class rest
  end.

(** [/^[A-Z0-9.-]{1,10}$/.test(s)]: the pattern is anchored at both ends and
    has no flag, so it accepts the strings made of one to ten characters of
    the class and nothing else. *)
Definition ticker_regex_test (s : string) : bool :=
  all_in_class s && (1 <=? String.length s)%nat && (String.length s <=? 10)%nat.

(** ** Configuration, the outside world, the cache *)

(** [process.env]: a variable is a string or is missing. *)
Record config : Type := Config {
  FMP_API_KEY : option string;
  GEMINI_API_KEY : option string
}.

(** Truthiness of an environment variable: missing and empty are falsy. *)
Definition env_set (k : option string) : bool :=
  match k with
  | Some s => negb (String.eqb s "")
  | None => false
  end.

(** An environment variable spliced into a template literal. *)
Definition env_text (k : option string) : string :=
  default "undefined" k.

(** What one request meets outside the process: how axios settles a GET of a
    URL and a POST of a prompt to a URL (fulfilled with the decoded
    [response.data], or rejected), and the two readings of the clock, in
    milliseconds: [Date.now()] on arrival and [new Date()] when the result is
    assembled. JavaScript runs the assembly, the cache write and the reply
    without yielding, so [new_Date] is also the instant of the write. *)
Record world : Type := World {
  axios_get : string → settled value;
  axios_post : string → prompt → settled value;
  Date_now : Z;
  new_Date : Z
}.

(** The object the handler assembles and replies with; [analysis_lastPrice]
    is its [analysis.lastPrice]. A field that is [undefined] is left out when
    the reply is written as JSON. *)
Record result : Type := Result {
  ticker : string;
  pulse : value;
  reason : value;
  confidence : value;
  analysis_lastPrice : string;
  history : value;
  news : value;
  timestamp : string
}.

(** A value of the [cache] map: [{ timestamp, data }]. *)
Record entry : Type := Entry {
  entry_timestamp : Z;
  entry_data : result
}.

(** What [res.json] is given: a result, or [{ error }]. *)
Inductive body : Type :=
| JsonResult (r : result)
| JsonError (error : string).

Record reply : Type := Reply {
  status : nat;
  json : body
}.

(** [req.params.ticker] *)
Record request : Type := Request {
  params_ticker : string
}.

(** The double quote, for messages that contain one. *)
Definition dq : string := String "034"%char EmptyString.

Section Server.
Context `{Engine} (env : config) (w : world).

Definition http_get (url : string) : async value :=
  (axios_get w url, [HttpGet url]).

Definition http_post (url : string) (p : prompt) : async value :=
  (axios_post w url p, [HttpPost url p]).

(** ** The upstream clients *)

(** The three URLs, as the template literals of the source build them. *)
Definition historical_url (ticker : string) : string :=
  "https://financialmodelingprep.com/api/v3/historical-price-full/"
  +:+ ticker +:+ "?apikey=" +:+ env_text (FMP_API_KEY env).

Definition news_url (ticker : string) : string :=
  "https://financialmodelingprep.com/api/v3/stock_news?tickers="
  +:+ ticker +:+ "&limit=5&apikey=" +:+ env_text (FMP_API_KEY env).

Definition GEMINI_API_URL : string :=
  "https://generativelanguage.googleapis.com/v1beta/models/gemini-1.5-flash-latest:generateContent?key="
  +:+ env_text (GEMINI_API_KEY env).

Definition getHistoricalData (ticker : string) : async value :=
  emit (Entered_getHistoricalData ticker) ;;;
  if negb (env_set (FMP_API_KEY env)) then
    throw (new_Error "FMP API key not configured.")
  else
    let url := historical_url ticker in
    let no_data :=
      new_Error ("No time series data found for " +:+ dq +:+ ticker +:+ dq +:+ ".") in
    try_catch
      (data <- http_get url ;;
       if negb (truthy data) then throw no_data
       else
         historical <- get_field data "historical" ;;
         if negb (truthy historical) then throw no_data
         else ret historical)
      (fun error => throw error).

Definition getNewsData (ticker : string) : async value :=
  emit (Entered_getNewsData ticker) ;;;
  if negb (env_set (FMP_API_KEY env)) then
    throw (new_Error "FMP API key not configured.")
  else
    let url := news_url ticker in
    try_catch
      (data <- http_get url ;;
       ret (if truthy data then data else VArr []))
      (fun _ => ret (VArr [])).

(** The callback of [map]: [day => ({ date, close, volume })]. *)
Definition date_close_volume (day : value) : async value :=
  date <- get_field day "date" ;;
  close <- get_field day "close" ;;
  volume <- get_field day "volume" ;;
  ret (VObj [("date", date); ("close", close); ("volume", volume)]).

(** [historicalData.slice(0, 20).map(day => ...)] *)
Definition recentData (historicalData : value) : async (list value) :=
  sliced <- slice_0_20 "historicalData" historicalData ;;
  array_map "historicalData.slice(...)" date_close_volume sliced.

(** [candidates[0].content.parts[0].text] *)
Definition first_candidate_text (candidates : value) : async value :=
  first <- get_index0 candidates ;;
  content <- get_field first "content" ;;
  parts <- get_field content "parts" ;;
  part <- get_index0 parts ;;
  get_field part "text".

(** The [catch] block first reads [error.response.data.error] for the log
    when the error carries a response, then throws its own error. The
    message of the [SyntaxError] of [JSON.parse] never leaves the function. *)
Definition getGeminiAnalysis (ticker : string) (historicalData : value)
  : async value :=
  emit (Entered_getGeminiAnalysis ticker historicalData) ;;;
  if negb (env_set (GEMINI_API_KEY env)) then
    throw (new_Error "Gemini API key not configured.")
  else
    recent <- recentData historicalData ;;
    let prompt := Prompt ticker recent in
    try_catch
      (data <- http_post GEMINI_API_URL prompt ;;
       candidates <- get_field data "candidates" ;;
       if truthy candidates && length_gt_zero candidates then
         text <- first_candidate_text candidates ;;
         match JSON_parse text with
         | Some parsed => ret parsed
         | None => throw (new_Error "SyntaxError")
         end
       else throw (new_Error "Invalid response structure from Gemini API."))
      (fun error =>
         match response error with
         | Some data => get_field data "error" ;;; ret tt
         | None => ret tt
         end ;;;
         throw (new_Error "Failed to get analysis from Gemini API.")).

(** ** The handler of [GET /market-pulse/:ticker] *)

(** [cache.has(ticker) && (now - cache.get(ticker).timestamp < 600000)] *)
Definition cache_hit (cache : gmap string entry) (ticker : string) (now : Z)
  : option result :=
  match cache !! ticker with
  | Some e => if now - entry_timestamp e <? 600000 then Some (entry_data e) else None
  | None => None
  end.

(** The body of the [try] block up to the assembled [result]. *)
Definition assemble (ticker : string) : async result :=
  fetched <- Promise_all2 (getHistoricalData ticker) (getNewsData ticker) ;;
  let historicalData := fst fetched in
  let newsData := snd fetched in
  analysis <- getGeminiAnalysis ticker historicalData ;;
  pulse <- get_field analysis "pulse" ;;
  reason <- get_field analysis "reason" ;;
  confidence <- get_field analysis "confidence" ;;
  latest <- get_index0 historicalData ;;
  close <- get_field latest "close" ;;
  history <- slice_0_20 "historicalData" historicalData ;;
  ret {| ticker := ticker;
         pulse := pulse;
         reason := reason;
         confidence := confidence;
         analysis_lastPrice := toFixed (parseFloat close) 2;
         history := history;
         news := newsData;
         timestamp := toISOString (new_Date w) |}.

(** The handler: the reply, the cache it leaves and the events it caused. *)
Definition market_pulse (cache : gmap string entry) (req : request)
  : reply * gmap string entry * list event :=
  let ticker := toUpperCase (params_ticker req) in
  let now := Date_now w in
  if negb (ticker_regex_test ticker) then
    (Reply 400 (JsonError "Invalid ticker format."), cache, [])
  else
    match cache_hit cache ticker now with
    | Some data => (Reply 200 (JsonResult data), cache, [])
    | None =>
        match assemble ticker with
        | (Fulfilled result, events) =>
            (Reply 200 (JsonResult result),
             <[ticker := Entry now result]> cache,
             events)
        | (Rejected error, events) =>
            (Reply 500 (JsonError (message error)), cache, events)
        end
    end.

End Server.

(** An event made on behalf of ticker [T]: a client entered with [T], a GET
    of one of the two URLs built from [T], or a POST of a prompt for [T]. *)
Definition concerns (env : config) (T : string) (ev : event) : Prop :=
  match ev with
  | Entered_getHistoricalData t | Entered_getNewsData t
  | Entered_getGeminiAnalysis t _ => t = T
  | HttpGet url => url = historical_url env T ∨ url = news_url env T
  | HttpPost url p => url = GEMINI_API_URL env ∧ prompt_ticker p = T
  end.

(** ** The process over several requests *)

(** The module-level [cache] starts empty and lives as long as the process.
    [serve] runs the handler on requests that do not overlap: each one is
    answered before the next arrives, in a world of its own, with the
    configuration read once at start-up. It returns the replies in order and
    the cache left at the end. *)
Fixpoint serve `{Engine} (env : config) (cache : gmap string entry)
    (requests : list (world * request)) : list reply * gmap string entry :=
  match requests with
  | [] => ([], cache)
  | (w, req) :: rest =>
      let out := market_pulse env w cache req in
      let served := serve env out.1.2 rest in
      (out.1.1 :: served.1, served.2)
  end.

(** What every result the handler sends turns out to be: it names the
    uppercased ticker [T], which passed validation; its history is an array
    of one to twenty points; and its last price is the [close] of the first
    point of that very history, printed with two decimals. *)
Definition well_formed_result `{Engine} (T : string) (r : result) : Prop :=
  ticker_regex_test T = true
  ∧ ticker r = T
  ∧ ∃ points latest close,
      history r = VArr points
      ∧ (1 ≤ length points ≤ 20)%nat
      ∧ head points = Some latest
      ∧ fst (get_field latest "close") = Fulfilled close
      ∧ analysis_lastPrice r = toFixed (parseFloat close) 2.

Definition well_formed_cache `{Engine} (cache : gmap string entry) : Prop :=
  ∀ k e, cache !! k = Some e → well_formed_result k (entry_data e).

(** * The page: momentum and recent searches

    The two computations of the React page that are not drawing: what
    [MomentumDisplay] works out from the history of a reply before it
    renders, and the list kept by [updateRecentSearches]. The JSX, the
    chart, [fetch] and [localStorage] are not modelled. A render that throws
    is a rejected computation; the page causes no event. Recent searches are
    strings, as the page stores them. *)
Module Frontend.

(** [Math.sign]: 1 and -1 for the positive and the negative numbers, the
    argument itself for the two zeros and for NaN. *)
Definition Math_sign (x : float) : float :=
  if (0 <? x)%float then 1%float
  else if (x <? 0)%float then (-1)%float
  else x.

(** One item of [returns]: [{ date, change }]. *)
Record day_return : Type := DayReturn {
  date : value;
  change : float
}.

(** What the component has computed when it starts to draw. *)
Record momentum : Type := Momentum {
  returns : list day_return;
  score : float;
  momentumText : string;
  momentumColor : string
}.

(** The chain of [if]s on the score; the two assignments of a branch are a
    pair. [score >= 3], [score > 0] and [score === 0] are comparisons of
    numbers: all three are false on NaN, and [-0 === 0]. *)
Definition momentum_label (score : float) : string * string :=
  if (3 <=? score)%float then ("Strong Positive", "text-green-400")
  else if (0 <? score)%float then ("Positive", "text-green-500")
  else if (score =? 0)%float then ("Neutral", "text-gray-400")
  else ("Negative", "text-red-500").

Section Momentum.
Context `{Engine}.

(** The callback of [Array.from]: the change in percent from the day at
    [i + 1] to the day at [i] of the history. An index past the end reads
    [undefined]. *)
Definition day_change (history : list value) (i : nat) : async day_return :=
  let today := default VUndefined (history !! i) in
  let yesterday := default VUndefined (history !! S i) in
  today_close <- get_field today "close" ;;
  yesterday_close <- get_field yesterday "close" ;;
  today_date <- get_field today "date" ;;
  ret {| date := today_date;
         change := ((ToNumber today_close - ToNumber yesterday_close)
                    / ToNumber yesterday_close * 100)%float |}.

(** [returns.reduce((acc, r) => acc + Math.sign(r.change), 0)] and the label
    it gets. *)
Definition momentum_of_returns (returns : list day_return) : momentum :=
  let score :=
    fold_left (fun acc r => (acc + Math_sign (change r))%float) returns 0%float in
  {| returns := returns;
     score := score;
     momentumText := fst (momentum_label score);
     momentumColor := snd (momentum_label score) |}.

(** The component up to its [return]. The page computes [chartData] with
    [pulse?.history?.map] before it renders the component, so the [history]
    that reaches it is an array, or is [undefined] or [null] ([None]). The
    result [None] is the [null] of the guard: nothing is drawn. *)
Definition MomentumDisplay (history : option (list value))
  : async (option momentum) :=
  match history with
  | None => ret None
  | Some days =>
      if (length days <? 6)%nat then ret None
      else
        forward <- for_each (day_change days) (seq 0 5) ;;
        ret (Some (momentum_of_returns (reverse forward)))
  end.

End Momentum.

(** The list that [updateRecentSearches] stores, from the list in the state
    of the component and the ticker just searched:
    [[newTicker, ...recentSearches.filter(t => t !== newTicker)].slice(0, 5)]. *)
Definition updateRecentSearches (recentSearches : list string) (newTicker : string)
  : list string :=
  take 5 (newTicker :: filter (fun t => t ≠ newTicker) recentSearches).

End Frontend.

(** * A reference engine

    An executable instance of [Engine], used to run the handler on concrete
    requests. It follows ECMA-262 on ASCII text: [toUpperCase] maps [a-z];
    decimal literals are rounded to the nearest binary64; [toFixed] rounds
    the exact binary value, half away from zero; [JSON.parse] reads objects,
    arrays, strings with the single-character escapes, numbers and the three
    literals. Outside that fragment (case mapping beyond ASCII, unicode
    escapes, literals with a radix prefix, arrays and objects given where a
    string is expected, the exponent notation of [toFixed] from 1e21 on) it
    gives a simple answer that V8 may not share. *)
Module Reference.

Definition is_between (lo hi : nat) (c : ascii) : bool :=
  ((lo <=? nat_of_ascii c) && (nat_of_ascii c <=? hi))%nat.

Definition upper_char (c : ascii) : ascii :=
  if is_between 97 122 c then ascii_of_nat (nat_of_ascii c - 32) else c.

Fixpoint toUpperCase (s : string) : string :=
  match s with
  | EmptyString => EmptyString
  | String c rest => String (upper_char c) (toUpperCase rest)
  end.

(** *** Decimal literals to binary64 *)

(** [m * 10 ^ e10] with sign [neg], rounded to nearest, ties to even. The two
    early exits only avoid huge powers. With [e10 >= 0] the magnitude is at
    least [2 ^ (log2 m + 3 * e10)]: past [2 ^ 1100] it is beyond the largest
    double. With [e10 < 0] it is below [2 ^ (log2 m + 1 + 3 * e10)]: under
    [2 ^ -1100] it is below half the smallest double. A literal with a long
    fraction ([e10 < 0]) is never cut short as too large: it is divided and
    rounded, which overflows by itself when it has to. *)
Definition float_of_decimal (neg : bool) (m e10 : Z) : float :=
  if m <=? 0 then (if neg then (-0)%float else 0%float)
  else if (0 <=? e10) && (1100 <? Z.log2 m + 3 * e10)
       then (if neg then neg_infinity else infinity)
  else if (e10 <? 0) && (Z.log2 m + 1 + 3 * e10 <? -1100)
       then (if neg then (-0)%float else 0%float)
  else if 0 <=? e10 then
    SF2Prim (binary_normalize prec emax (if neg then - (m * 10 ^ e10) else m * 10 ^ e10)
                              0 false)
  else
    let d := 10 ^ (- e10) in
    let s := Z.max 0 (64 + Z.log2 d - Z.log2 m) in
    let q := (m * 2 ^ s) / d in
    let r := (m * 2 ^ s) mod d in
    let l := if r =? 0 then loc_Exact else loc_Inexact (2 * r ?= d) in
    SF2Prim (binary_round_aux prec emax neg q (- s) l).

Definition digit_of (c : ascii) : option Z :=
  if is_between 48 57 c then Some (Z.of_nat (nat_of_ascii c - 48)) else None.

(** Reads a run of digits: the number read after [acc], how many digits, and
    the rest of the text. *)
Fixpoint read_digits (s : string) (acc : Z) (count : Z) : Z * Z * string :=
  match s with
  | String c rest =>
      match digit_of c with
      | Some d => read_digits rest (10 * acc + d) (count + 1)
      | None => (acc, count, s)
      end
  | EmptyString => (acc, count, s)
  end.

(** An exponent part [e], [e+] or [e-] followed by digits, if the text starts
    with one. *)
Definition read_exponent (s : string) : Z * string :=
  match s with
  | String c rest =>
      if (Ascii.eqb c "e" || Ascii.eqb c "E")%bool then
        let '(neg, digits) :=
          match rest with
          | String "-" r => (true, r)
          | String "+" r => (false, r)
          | _ => (false, rest)
          end in
        let '(e, n, after) := read_digits digits 0 0 in
        if n =? 0 then (0, s) else ((if neg then - e else e), after)
      else (0, s)
  | EmptyString => (0, s)
  end.

(** The longest decimal literal at the head of the text: integer digits, an
    optional fraction, an optional exponent. [None] when there is no digit. *)
Definition read_decimal (neg : bool) (s : string) : option (float * string) :=
  let '(i, ni, after_int) := read_digits s 0 0 in
  let '(m, nf, after_frac) :=
    match after_int with
    | String "." r =>
        let '(m, nf, after) := read_digits r i 0 in
        if ((ni =? 0) && (nf =? 0))%bool then (i, 0, after_int) else (m, nf, after)
    | _ => (i, 0, after_int)
    end in
  if ((ni =? 0) && (nf =? 0))%bool then None
  else
    let '(e, rest) := read_exponent after_frac in
    Some (float_of_decimal neg m (e - nf), rest).

Definition is_space (c : ascii) : bool :=
  let n := nat_of_ascii c in
  ((n =? 32) || (9 <=? n) && (n <=? 13))%nat.

Fixpoint skip_spaces (s : string) : string :=
  match s with
  | String c rest => if is_space c then skip_spaces rest else s
  | EmptyString => s
  end.

Definition read_signed (s : string) : option (float * string) :=
  match s with
  | String "-" r =>
      if String.prefix "Infinity" r then Some (neg_infinity, substring 8 (String.length r) r)
      else read_decimal true r
  | String "+" r =>
      if String.prefix "Infinity" r then Some (infinity, substring 8 (String.length r) r)
      else read_decimal false r
  | _ =>
      if String.prefix "Infinity" s then Some (infinity, substring 8 (String.length s) s)
      else read_decimal false s
  end.

(** [parseFloat]: a number prints to a literal that reads back as itself
    (zero loses its sign); a string is trimmed on the left and its longest
    numeric prefix is read. *)
Definition parseFloat (v : value) : float :=
  match v with
  | VNum n => if is_zero n then 0%float else n
  | VStr s =>
      match read_signed (skip_spaces s) with
      | Some (x, _) => x
      | None => nan
      end
  | _ => nan
  end.

(** [ToNumber]: a string must be a literal as a whole, blanks aside; the
    empty string is zero. *)
Definition ToNumber (v : value) : float :=
  match v with
  | VUndefined => nan
  | VNull => 0%float
  | VBool true => 1%float
  | VBool false => 0%float
  | VNum n => n
  | VStr s =>
      let t := skip_spaces s in
      if String.eqb t "" then 0%float
      else match read_signed t with
           | Some (x, rest) => if String.eqb (skip_spaces rest) "" then x else nan
           | None => nan
           end
  | VArr _ | VObj _ => nan
  end.

(** *** Printing *)

Definition decimal_digits (n : Z) : string :=
  NilZero.string_of_uint (N.to_uint (Z.to_N n)).

Fixpoint zeros (n : nat) : string :=
  match n with
  | O => EmptyString
  | S k => String "0" (zeros k)
  end.

(** [n] printed with at least [width] digits. *)
Definition padded (width : nat) (n : Z) : string :=
  let d := decimal_digits n in
  zeros (width - String.length d) +:+ d.

(** [x.toFixed(digits)]: the integer nearest to [|x| * 10 ^ digits], the
    larger one on a tie, printed with a point before its last [digits]
    digits. *)
Definition toFixed (x : float) (digits : nat) : string :=
  let fixed (n : Z) : string :=
    let d := padded (S digits) n in
    let int_len := (String.length d - digits)%nat in
    match digits with
    | O => d
    | S _ => substring 0 int_len d +:+ "." +:+ substring int_len digits d
    end in
  match Prim2SF x with
  | S754_nan => "NaN"
  | S754_infinity s => if s then "-Infinity" else "Infinity"
  | S754_zero _ => fixed 0
  | S754_finite s m e =>
      let scaled := Zpos m * 10 ^ Z.of_nat digits in
      let n := if 0 <=? e then scaled * 2 ^ e
               else (2 * scaled + 2 ^ (- e)) / 2 ^ (1 - e) in
      (if s then "-" else "") +:+ fixed n
  end.

(** [new Date(ms).toISOString()], by the usual computation of the civil date
    from the count of days since 1970-01-01. *)
Definition toISOString (ms : Z) : string :=
  let days := ms / 86400000 in
  let t := ms mod 86400000 in
  let z := days + 719468 in
  let era := z / 146097 in
  let doe := z - era * 146097 in
  let yoe := (doe - doe / 1460 + doe / 36524 - doe / 146096) / 365 in
  let doy := doe - (365 * yoe + yoe / 4 - yoe / 100) in
  let mp := (5 * doy + 2) / 153 in
  let d := doy - (153 * mp + 2) / 5 + 1 in
  let m := if mp <? 10 then mp + 3 else mp - 9 in
  let y := yoe + era * 400 + (if m <=? 2 then 1 else 0) in
  let year := if (0 <=? y) && (y <=? 9999) then padded 4 y
              else (if y <? 0 then "-" else "+") +:+ padded 6 (Z.abs y) in
  year +:+ "-" +:+ padded 2 m +:+ "-" +:+ padded 2 d
  +:+ "T" +:+ padded 2 (t / 3600000) +:+ ":" +:+ padded 2 (t / 60000 mod 60)
  +:+ ":" +:+ padded 2 (t / 1000 mod 60) +:+ "." +:+ padded 3 (t mod 1000) +:+ "Z".

(** *** JSON texts *)

Definition is_json_space (c : ascii) : bool :=
  let n := nat_of_ascii c in
  ((n =? 32) || (n =? 9) || (n =? 10) || (n =? 13))%nat.

Fixpoint skip_json_spaces (s : string) : string :=
  match s with
  | String c rest => if is_json_space c then skip_json_spaces rest else s
  | EmptyString => s
  end.

(** The characters of a string literal after its opening quote, up to the
    closing quote; raw control characters and unicode escapes are refused. *)
Fixpoint read_string (s : string) : option (string * string) :=
  match s with
  | EmptyString => None
  | String "034" rest => Some (EmptyString, rest)
  | String "\" (String c rest) =>
      let escaped :=
        match c with
        | "034"%char | "\"%char | "/"%char => Some c
        | "b"%char => Some "008"%char
        | "f"%char => Some "012"%char
        | "n"%char => Some "010"%char
        | "r"%char => Some "013"%char
        | "t"%char => Some "009"%char
        | _ => None
        end in
      match escaped, read_string rest with
      | Some c', Some (text, after) => Some (String c' text, after)
      | _, _ => None
      end
  | String c rest =>
      if (nat_of_ascii c <? 32)%nat then None
      else match read_string rest with
           | Some (text, after) => Some (String c text, after)
           | None => None
           end
  end.

(** A JSON number: no leading zero before another digit, digits on both
    sides of a point. *)
Definition read_json_number (s : string) : option (float * string) :=
  let '(neg, digits) :=
    match s with
    | String "-" r => (true, r)
    | _ => (false, s)
    end in
  let '(_, ni, after_int) := read_digits digits 0 0 in
  let leading_zero :=
    match digits with
    | String "0" _ => 1 <? ni
    | _ => false
    end in
  let bare_point :=
    match after_int with
    | String "." r => let '(_, nf, _) := read_digits r 0 0 in nf =? 0
    | _ => false
    end in
  if (ni =? 0) || leading_zero || bare_point then None
  else read_decimal neg digits.

(** A later member of the same name replaces the value of the earlier one. *)
Fixpoint set_property (props : list (string * value)) (name : string) (v : value)
  : list (string * value) :=
  match props with
  | [] => [(name, v)]
  | (k, old) :: rest =>
      if String.eqb k name then (k, v) :: rest
      else (k, old) :: set_property rest name v
  end.

Fixpoint read_value (fuel : nat) (s : string) : option (value * string) :=
  match fuel with
  | O => None
  | S fuel' =>
      let s := skip_json_spaces s in
      match s with
      | String "{" rest =>
          match skip_json_spaces rest with
          | String "}" after => Some (VObj [], after)
          | members => read_members fuel' members []
          end
      | String "[" rest =>
          match skip_json_spaces rest with
          | String "]" after => Some (VArr [], after)
          | elements => read_elements fuel' elements []
          end
      | String "034" rest =>
          match read_string rest with
          | Some (text, after) => Some (VStr text, after)
          | None => None
          end
      | _ =>
          if String.prefix "true" s then Some (VBool true, substring 4 (String.length s) s)
          else if String.prefix "false" s then Some (VBool false, substring 5 (String.length s) s)
          else if String.prefix "null" s then Some (VNull, substring 4 (String.length s) s)
          else match read_json_number s with
               | Some (x, after) => Some (VNum x, after)
               | None => None
               end
      end
  end
with read_elements (fuel : nat) (s : string) (acc : list value)
  : option (value * string) :=
  match fuel with
  | O => None
  | S fuel' =>
      match read_value fuel' s with
      | Some (v, after) =>
          match skip_json_spaces after with
          | String "," rest => read_elements fuel' rest (acc ++ [v])
          | String "]" rest => Some (VArr (acc ++ [v]), rest)
          | _ => None
          end
      | None => None
      end
  end
with read_members (fuel : nat) (s : string) (acc : list (string * value))
  : option (value * string) :=
  match fuel with
  | O => None
  | S fuel' =>
      match skip_json_spaces s with
      | String "034" rest =>
          match read_string rest with
          | Some (name, after_name) =>
              match skip_json_spaces after_name with
              | String ":" rest' =>
                  match read_value fuel' rest' with
                  | Some (v, after) =>
                      match skip_json_spaces after with
                      | String "," rest'' =>
                          read_members fuel' rest'' (set_property acc name v)
                      | String "}" rest'' =>
                          Some (VObj (set_property acc name v), rest'')
                      | _ => None
                      end
                  | None => None
                  end
              | _ => None
              end
          | None => None
          end
      | _ => None
      end
  end.

(** [JSON.parse]: one value, with nothing but blanks after it. *)
Definition JSON_parse (v : value) : option value :=
  match v with
  | VStr s =>
      match read_value (2 * String.length s + 2) s with
      | Some (parsed, after) =>
          if String.eqb (skip_json_spaces after) "" then Some parsed else None
      | None => None
      end
  | VNull => Some VNull
  | VBool b => Some (VBool b)
  | VNum n =>
      match Prim2SF n with
      | S754_finite _ _ _ => Some (VNum n)
      | S754_zero _ => Some (VNum 0%float)
      | _ => None
      end
  | _ => None
  end.

End Reference.

#[export] Instance reference_engine : Engine := {|
  toUpperCase := Reference.toUpperCase;
  ToNumber := Reference.ToNumber;
  parseFloat := Reference.parseFloat;
  toFixed := Reference.toFixed;
  JSON_parse := Reference.JSON_parse;
  toISOString := Reference.toISOString
|}.

(** A string literal of a JSON text. *)
Definition quoted (s : string) : string := dq +:+ s +:+ dq.

(** * Sample upstream behaviour

    Concrete configurations, payloads and worlds on which the handler is run
    below. *)
Module Sample.

Local Set Warnings "-inexact-float".

Definition env : config :=
  {| FMP_API_KEY := Some "fmp-key"; GEMINI_API_KEY := Some "gemini-key" |}.

(** No key for the data provider. *)
Definition env_without_fmp : config :=
  {| FMP_API_KEY := None; GEMINI_API_KEY := Some "gemini-key" |}.

(** The [i]-th most recent trading day. *)
Definition day (i : nat) : value :=
  VObj [("date", VStr ("2024-03-" +:+ Reference.padded 2 (28 - Z.of_nat i)));
        ("close", VNum (187.456 - of_uint63 (Uint63.of_Z (Z.of_nat i)))%float);
        ("volume", VNum (of_uint63 (Uint63.of_Z (50000000 + 1000 * Z.of_nat i))))].

(** A history of 25 days, newest first. *)
Definition days : list value := map day (seq 0 25).

Definition historical_payload : value :=
  VObj [("symbol", VStr "AAPL"); ("historical", VArr days)].

Definition headline (i : nat) : value :=
  VObj [("title", VStr ("Headline " +:+ Reference.decimal_digits (Z.of_nat i)));
        ("text", VStr "Shares moved in early trading.");
        ("url", VStr ("https://news.example/" +:+ Reference.decimal_digits (Z.of_nat i)))].

Definition headlines (n : nat) : value := VArr (map headline (seq 1 n)).

(** The text of an answer of the model with the given pulse and confidence. *)
Definition answer_text (pulse confidence : string) : string :=
  "{" +:+ quoted "pulse" +:+ ": " +:+ quoted pulse +:+ ", "
  +:+ quoted "reason" +:+ ": " +:+ quoted "Steady gains on rising volume." +:+ ", "
  +:+ quoted "confidence" +:+ ": " +:+ quoted confidence +:+ "}".

(** A response of the model API carrying [text] in its first candidate. *)
Definition gemini_payload (text : value) : value :=
  VObj [("candidates",
         VArr [VObj [("content", VObj [("parts", VArr [VObj [("text", text)]]);
                                      ("role", VStr "model")])]])].

Definition bullish : value := gemini_payload (VStr (answer_text "Bullish" "High")).

(** What [JSON.parse] makes of that text. *)
Definition bullish_verdict : value :=
  VObj [("pulse", VStr "Bullish");
        ("reason", VStr "Steady gains on rising volume.");
        ("confidence", VStr "High")].

(** An axios failure without a response (network) or with one (status). *)
Definition network_error : error :=
  {| message := "getaddrinfo ENOTFOUND"; response := None |}.

Definition status_error (code : string) (data : value) : error :=
  {| message := "Request failed with status code " +:+ code; response := Some data |}.

(** A world in which the historical endpoint, the news endpoint and the model
    settle as given; the request arrives at [t0] and the result is assembled
    at [t1]. *)
Definition world_of (historical news model : settled value) (t0 t1 : Z) : world :=
  {| axios_get url :=
       if String.prefix "https://financialmodelingprep.com/api/v3/historical-price-full/" url
       then historical else news;
     axios_post _ _ := model;
     Date_now := t0;
     new_Date := t1 |}.

(** 2023-11-14T22:13:20Z, and three seconds later. *)
Definition t0 : Z := 1700000000000.
Definition t1 : Z := 1700000003000.

(** Everything answers: 25 days, 3 headlines, a bullish verdict. *)
Definition all_up : world :=
  world_of (Fulfilled historical_payload) (Fulfilled (headlines 3)) (Fulfilled bullish) t0 t1.

Definition AAPL : request := {| params_ticker := "aapl" |}.

(** What [all_up] should make of [AAPL] on an empty cache, written out. *)
Definition expected : result :=
  {| ticker := "AAPL";
     pulse := VStr "Bullish";
     reason := VStr "Steady gains on rising volume.";
     confidence := VStr "High";
     analysis_lastPrice := "187.46";
     history := VArr (map day (seq 0 20));
     news := headlines 3;
     timestamp := "2023-11-14T22:13:23.000Z" |}.

Definition expected_events : list event :=
  [Entered_getHistoricalData "AAPL";
   HttpGet "https://financialmodelingprep.com/api/v3/historical-price-full/AAPL?apikey=fmp-key";
   Entered_getNewsData "AAPL";
   HttpGet "https://financialmodelingprep.com/api/v3/stock_news?tickers=AAPL&limit=5&apikey=fmp-key";
   Entered_getGeminiAnalysis "AAPL" (VArr days);
   HttpPost "https://generativelanguage.googleapis.com/v1beta/models/gemini-1.5-flash-latest:generateContent?key=gemini-key"
            (Prompt "AAPL" (map day (seq 0 20)))].

(** The cache that request leaves behind, and the same world [dt]
    milliseconds later. *)
Definition warm : gmap string entry := {[ "AAPL" := Entry t0 expected ]}.

Definition later (dt : Z) : world :=
  world_of (Fulfilled historical_payload) (Fulfilled (headlines 3)) (Fulfilled bullish)
           (t0 + dt) (t1 + dt).

(** The historical endpoint answers 503, or answers an object without
    [historical]. *)
Definition history_down : world :=
  world_of (Rejected (status_error "503" (VStr "")))
           (Fulfilled (headlines 3)) (Fulfilled bullish) t0 t1.

Definition no_history_field : world :=
  world_of (Fulfilled (VObj [])) (Fulfilled (headlines 3)) (Fulfilled bullish) t0 t1.

(** The news endpoint cannot be reached; answers 200 with a page of text
    instead of a list; answers with six items. *)
Definition news_down : world :=
  world_of (Fulfilled historical_payload) (Rejected network_error) (Fulfilled bullish) t0 t1.

Definition news_page : world :=
  world_of (Fulfilled historical_payload)
           (Fulfilled (VStr "Service temporarily unavailable"))
           (Fulfilled bullish) t0 t1.

Definition six_headlines : world :=
  world_of (Fulfilled historical_payload) (Fulfilled (headlines 6)) (Fulfilled bullish) t0 t1.

(** The model answers 429; answers with prose; answers with labels outside
    the two vocabularies. *)
Definition model_down : world :=
  world_of (Fulfilled historical_payload) (Fulfilled (headlines 3))
           (Rejected (status_error "429"
                        (VObj [("error", VObj [("status", VStr "RESOURCE_EXHAUSTED")])])))
           t0 t1.

Definition model_rambles : world :=
  world_of (Fulfilled historical_payload) (Fulfilled (headlines 3))
           (Fulfilled (gemini_payload (VStr "The outlook is bullish.")))
           t0 t1.

Definition off_vocabulary : world :=
  world_of (Fulfilled historical_payload) (Fulfilled (headlines 3))
           (Fulfilled (gemini_payload (VStr (answer_text "Sideways" "Certain"))))
           t0 t1.

(** The model answers with JSON of another shape, or with [null]. *)
Definition another_shape : world :=
  world_of (Fulfilled historical_payload) (Fulfilled (headlines 3))
           (Fulfilled (gemini_payload (VStr "[1, 2]")))
           t0 t1.

Definition null_verdict : world :=
  world_of (Fulfilled historical_payload) (Fulfilled (headlines 3))
           (Fulfilled (gemini_payload (VStr "null")))
           t0 t1.

(** The historical endpoint answers with an empty history. *)
Definition empty_history : world :=
  world_of (Fulfilled (VObj [("symbol", VStr "AAPL"); ("historical", VArr [])]))
           (Fulfilled (headlines 3)) (Fulfilled bullish) t0 t1.

(** No key for the model. *)
Definition env_without_gemini : config :=
  {| FMP_API_KEY := Some "fmp-key"; GEMINI_API_KEY := None |}.

(** The model answers 502 with the JSON body [null]. *)
Definition model_null_body : world :=
  world_of (Fulfilled historical_payload) (Fulfilled (headlines 3))
           (Rejected (status_error "502" VNull)) t0 t1.

(** The historical endpoint answers with an object where the array of days
    should be. *)
Definition history_as_object : world :=
  world_of (Fulfilled (VObj [("symbol", VStr "AAPL");
                             ("historical", VObj [("2024-03-28", day 0)])]))
           (Fulfilled (headlines 3)) (Fulfilled bullish) t0 t1.

(** Nothing upstream can be reached, [dt] milliseconds after [t0]. *)
Definition outage (dt : Z) : world :=
  world_of (Rejected network_error) (Rejected network_error) (Rejected network_error)
           (t0 + dt) (t1 + dt).

(** A cache that also holds an entry for another ticker. *)
Definition warm_and_more : gmap string entry :=
  <["MSFT" := Entry (t0 - 1000) expected]> warm.

(** A morning of requests: a first one, the same ticker during an outage,
    an invalid ticker, another ticker during the outage. *)
Definition morning : list (world * request) :=
  [(all_up, AAPL);
   (outage 1000, {| params_ticker := "Aapl" |});
   (later 2000, {| params_ticker := "AA PL" |});
   (outage 3000, {| params_ticker := "msft" |})].

(** Recent searches found in the browser, and searches made after that. *)
Definition stored_searches : list string := ["AAPL"; "MSFT"].

Definition searches : list string := ["TSLA"; "AAPL"; "NVDA"; "GOOG"; "AMZN"; "TSLA"].

(** A history whose third day has no [close]. *)
Definition days_with_a_gap : list value :=
  <[2%nat := VObj [("date", VStr "2024-03-26")]]> days.

(** The model answers with an object that has none of the three fields. *)
Definition empty_verdict : world :=
  world_of (Fulfilled historical_payload) (Fulfilled (headlines 3))
           (Fulfilled (gemini_payload (VStr "{}")))
           t0 t1.

(** The parts of an outcome of the handler. *)
Definition replied (out : reply * gmap string entry * list event) : reply := out.1.1.
Definition cache_after (out : reply * gmap string entry * list event)
  : gmap string entry := out.1.2.
Definition sent (out : reply * gmap string entry * list event) : option result :=
  match json out.1.1 with
  | JsonResult r => Some r
  | JsonError _ => None
  end.

End Sample.

(** * Properties *)

#[local] Arguments bind : simpl never.
#[local] Arguments try_catch : simpl never.
#[local] Arguments Promise_all2 : simpl never.
#[local] Arguments http_get : simpl never.
#[local] Arguments http_post : simpl never.
#[local] Arguments String.append : simpl never.

(** ** The algebra of [async]: outcomes and events, separately *)

Lemma fst_bind {A B} (m : async A) (k : A → async B) :
  fst (bind m k) = match fst m with
                   | Fulfilled a => fst (k a)
                   | Rejected e => Rejected e
                   end.
Proof. destruct m as [[a|e] t]; unfold bind; simpl; [destruct (k a)|]; reflexivity. Qed.

Lemma snd_bind {A B} (m : async A) (k : A → async B) :
  snd (bind m k) = snd m ++ match fst m with
                            | Fulfilled a => snd (k a)
                            | Rejected _ => []
                            end.
Proof.
  destruct m as [[a|e] t]; unfold bind; simpl; [destruct (k a); reflexivity|].
  symmetry. apply app_nil_r.
Qed.

Lemma fst_try_catch {A} (m : async A) (h : error → async A) :
  fst (try_catch m h) = match fst m with
                        | Fulfilled a => Fulfilled a
                        | Rejected e => fst (h e)
                        end.
Proof.
  destruct m as [[a|e] t]; unfold try_catch; simpl; [|destruct (h e)]; reflexivity.
Qed.

Lemma snd_try_catch {A} (m : async A) (h : error → async A) :
  snd (try_catch m h) = snd m ++ match fst m with
                                 | Fulfilled _ => []
                                 | Rejected e => snd (h e)
                                 end.
Proof.
  destruct m as [[a|e] t]; unfold try_catch; simpl; [|destruct (h e); reflexivity].
  symmetry. apply app_nil_r.
Qed.

Lemma fst_Promise_all2 {A B} (p : async A) (q : async B) :
  fst (Promise_all2 p q) = match fst p, fst q with
                           | Fulfilled a, Fulfilled b => Fulfilled (a, b)
                           | Rejected e, _ => Rejected e
                           | Fulfilled _, Rejected e => Rejected e
                           end.
Proof. destruct p as [[a|e] t], q as [[b|e'] t']; reflexivity. Qed.

Lemma Promise_all2_events {A B} (p : async A) (q : async B) :
  snd (Promise_all2 p q) = snd p ++ snd q.
Proof. destruct p as [[a|e] t], q as [[b|e'] t']; reflexivity. Qed.

Lemma bind_silent {A B} (m : async A) (k : A → async B) :
  snd m = [] → (∀ a, snd (k a) = []) → snd (bind m k) = [].
Proof.
  destruct m as [[a|e] t]; unfold bind; simpl; intros -> Hk; [|reflexivity].
  specialize (Hk a). destruct (k a); simpl in *. assumption.
Qed.

(** ** Reads make no event, and fail only on [undefined] and [null] *)

Lemma get_field_silent (v : value) (name : string) : snd (get_field v name) = [].
Proof. destruct v; reflexivity. Qed.

Lemma get_index0_silent (v : value) : snd (get_index0 v) = [].
Proof. destruct v as [| | | |[|c s]| |]; reflexivity. Qed.

Lemma slice_0_20_silent (what : string) (v : value) : snd (slice_0_20 what v) = [].
Proof. destruct v; reflexivity. Qed.

Lemma for_each_silent {A B} (f : A → async B) (l : list A) :
  (∀ a, snd (f a) = []) → snd (for_each f l) = [].
Proof.
  intros Hf. induction l as [|x l IH]; simpl; [reflexivity|].
  apply bind_silent; [apply Hf|]. intros y.
  apply bind_silent; [apply IH|]. reflexivity.
Qed.

(** A read that is fulfilled was not made on [undefined] or [null]. *)
Lemma get_field_fulfilled (v : value) (name : string) (x : value) :
  fst (get_field v name) = Fulfilled x → nullish v = false.
Proof. destruct v; simpl; congruence. Qed.

Lemma get_field_not_nullish (v : value) (name : string) :
  nullish v = false → ∃ x, get_field v name = (Fulfilled x, []).
Proof. destruct v; simpl; try discriminate; eauto. Qed.

Lemma truthy_not_nullish (v : value) : truthy v = true → nullish v = false.
Proof. destruct v; simpl; congruence. Qed.

(** ** The ticker grammar *)

Lemma all_in_class_Forall (s : string) :
  all_in_class s = true ↔
  Forall (fun c => in_class_AZ_09_dot_dash c = true) (list_ascii_of_string s).
Proof.
  induction s as [|c s IH]; simpl.
  - split; [constructor | reflexivity].
  - rewrite andb_true_iff, IH. split.
    + intros [Hc Hs]. constructor; assumption.
    + intros Hf. inversion Hf; subst. split; assumption.
Qed.

Lemma in_class_spec (c : ascii) :
  in_class_AZ_09_dot_dash c = true ↔
  (nat_of_ascii "A" ≤ nat_of_ascii c ≤ nat_of_ascii "Z")%nat
  ∨ (nat_of_ascii "0" ≤ nat_of_ascii c ≤ nat_of_ascii "9")%nat
  ∨ c = "."%char ∨ c = "-"%char.
Proof.
  unfold in_class_AZ_09_dot_dash.
  change (nat_of_ascii "A") with 65%nat. change (nat_of_ascii "Z") with 90%nat.
  change (nat_of_ascii "0") with 48%nat. change (nat_of_ascii "9") with 57%nat.
  rewrite !orb_true_iff, !andb_true_iff, !Nat.leb_le, !Nat.eqb_eq.
  split.
  - intros [[[H1|H1]|H1]|H1]; [lia | lia | |].
    + right; right; left.
      rewrite <- (ascii_nat_embedding c), H1. reflexivity.
    + right; right; right.
      rewrite <- (ascii_nat_embedding c), H1. reflexivity.
  - intros [H1|[H1|[H1|H1]]]; [lia | lia | |]; subst c;
      [change (nat_of_ascii ".") with 46%nat | change (nat_of_ascii "-") with 45%nat]; lia.
Qed.

(** The test accepts exactly the strings of one to ten characters drawn from
    [A-Z], [0-9], [.] and [-]. *)
Lemma ticker_regex_test_spec (s : string) :
  ticker_regex_test s = true ↔
  (1 ≤ String.length s ≤ 10)%nat
  ∧ Forall (fun c => in_class_AZ_09_dot_dash c = true) (list_ascii_of_string s).
Proof.
  unfold ticker_regex_test.
  rewrite !andb_true_iff, !Nat.leb_le, all_in_class_Forall. tauto.
Qed.

(** The language of the test, character by character. *)
Lemma ticker_regex_test_language (s : string) :
  ticker_regex_test s = true ↔
  (1 ≤ String.length s ≤ 10)%nat
  ∧ Forall (fun c : ascii =>
              (nat_of_ascii "A" ≤ nat_of_ascii c ≤ nat_of_ascii "Z")%nat
              ∨ (nat_of_ascii "0" ≤ nat_of_ascii c ≤ nat_of_ascii "9")%nat
              ∨ c = "."%char ∨ c = "-"%char)
           (list_ascii_of_string s).
Proof.
  rewrite ticker_regex_test_spec. apply and_iff_compat_l.
  split; intros Hf; (eapply Forall_impl; [exact Hf|]); intros c; apply in_class_spec.
Qed.

Section Properties.
Context `{Engine} (env : config) (w : world).

(** ** The data clients *)

(** The three ways the historical client fails, and the only ones: no key,
    a rejected GET (unreachable provider, non-success status), or a payload
    that is falsy or has a falsy [historical]. *)
Lemma getHistoricalData_rejects (T : string) (e : error) :
  fst (getHistoricalData env w T) = Rejected e ↔
  (env_set (FMP_API_KEY env) = false ∧ e = new_Error "FMP API key not configured.")
  ∨ (env_set (FMP_API_KEY env) = true
     ∧ axios_get w (historical_url env T) = Rejected e)
  ∨ (env_set (FMP_API_KEY env) = true
     ∧ e = new_Error ("No time series data found for " +:+ dq +:+ T +:+ dq +:+ ".")
     ∧ ∃ data, axios_get w (historical_url env T) = Fulfilled data
        ∧ (truthy data = false
           ∨ ∃ historical, fst (get_field data "historical") = Fulfilled historical
              ∧ truthy historical = false)).
Proof.
  unfold getHistoricalData. rewrite fst_bind. simpl.
  destruct (env_set (FMP_API_KEY env)); simpl.
  2:{ split.
      - intros [= <-]. left. split; reflexivity.
      - intros [[_ ->]|[[? _]|[? _]]]; [reflexivity | discriminate | discriminate]. }
  rewrite fst_try_catch, fst_bind. unfold http_get. simpl.
  destruct (axios_get w (historical_url env T)) as [data|e0] eqn:Hg.
  2:{ simpl. split.
      - intros [= <-]. right; left. split; reflexivity.
      - intros [[? _]|[[_ [= ->]]|(_ & _ & data & ? & _)]];
          [discriminate | reflexivity | discriminate]. }
  destruct (truthy data) eqn:Ht; simpl.
  2:{ split.
      - intros [= <-]. right; right. repeat split. exists data. auto.
      - intros [[? _]|[[_ ?]|(_ & -> & _)]]; [discriminate | discriminate | reflexivity]. }
  rewrite fst_bind.
  destruct (get_field_not_nullish data "historical" (truthy_not_nullish _ Ht))
    as [h Hh].
  rewrite Hh. simpl.
  destruct (truthy h) eqn:Hth; simpl.
  - split; [discriminate|].
    intros [[? _]|[[_ ?]|(_ & _ & data' & [= <-] & [Hf|(h' & Hh' & Hf)])]];
      try discriminate.
    + congruence.
    + rewrite Hh in Hh'. simpl in Hh'. congruence.
  - split.
    + intros [= <-]. right; right. repeat split. exists data. split; [reflexivity|].
      right. exists h. rewrite Hh. auto.
    + intros [[? _]|[[_ ?]|(_ & -> & _)]]; [discriminate | discriminate | reflexivity].
Qed.

(** The historical client records its call and, with a key, one GET. *)
Lemma getHistoricalData_events (T : string) :
  snd (getHistoricalData env w T) =
  Entered_getHistoricalData T ::
  (if env_set (FMP_API_KEY env) then [HttpGet (historical_url env T)] else []).
Proof.
  unfold getHistoricalData. rewrite snd_bind. simpl. f_equal.
  destruct (env_set (FMP_API_KEY env)); simpl; [|reflexivity].
  rewrite snd_try_catch, snd_bind, fst_bind. unfold http_get. simpl.
  destruct (axios_get w (historical_url env T)) as [data|e]; [|reflexivity].
  destruct (truthy data) eqn:Ht; simpl; [|reflexivity].
  destruct (get_field_not_nullish data "historical" (truthy_not_nullish _ Ht))
    as [h Hh].
  rewrite snd_bind, fst_bind, Hh. simpl.
  destruct (truthy h); reflexivity.
Qed.

(** The historical client fulfils only with a key. *)
Lemma getHistoricalData_fulfilled_key (T : string) (h : value) :
  fst (getHistoricalData env w T) = Fulfilled h → env_set (FMP_API_KEY env) = true.
Proof.
  unfold getHistoricalData. rewrite fst_bind. simpl.
  destruct (env_set (FMP_API_KEY env)); [reflexivity | discriminate].
Qed.

(** With a key the news client never rejects: it yields the payload when it
    is truthy and the empty array otherwise; without a key it rejects. *)
Lemma getNewsData_settles (T : string) :
  fst (getNewsData env w T) =
  if env_set (FMP_API_KEY env) then
    Fulfilled match axios_get w (news_url env T) with
              | Fulfilled data => if truthy data then data else VArr []
              | Rejected _ => VArr []
              end
  else Rejected (new_Error "FMP API key not configured.").
Proof.
  unfold getNewsData. rewrite fst_bind. simpl.
  destruct (env_set (FMP_API_KEY env)); simpl; [|reflexivity].
  rewrite fst_try_catch, fst_bind. unfold http_get. simpl.
  destruct (axios_get w (news_url env T)) as [data|e]; reflexivity.
Qed.

Lemma getNewsData_events (T : string) :
  snd (getNewsData env w T) =
  Entered_getNewsData T ::
  (if env_set (FMP_API_KEY env) then [HttpGet (news_url env T)] else []).
Proof.
  unfold getNewsData. rewrite snd_bind. simpl. f_equal.
  destruct (env_set (FMP_API_KEY env)); simpl; [|reflexivity].
  rewrite snd_try_catch, snd_bind, fst_bind. unfold http_get. simpl.
  destruct (axios_get w (news_url env T)) as [data|e]; reflexivity.
Qed.

(** ** The sentiment client *)

Lemma date_close_volume_silent (day : value) : snd (date_close_volume day) = [].
Proof.
  unfold date_close_volume.
  repeat (apply bind_silent; [apply get_field_silent|]; intros ?). reflexivity.
Qed.

Lemma recentData_silent (h : value) : snd (recentData h) = [].
Proof.
  unfold recentData. apply bind_silent; [apply slice_0_20_silent|].
  intros sliced. destruct sliced; try reflexivity.
  apply for_each_silent, date_close_volume_silent.
Qed.

Lemma first_candidate_text_silent (c : value) : snd (first_candidate_text c) = [].
Proof.
  unfold first_candidate_text.
  apply bind_silent; [apply get_index0_silent|]; intros ?.
  apply bind_silent; [apply get_field_silent|]; intros ?.
  apply bind_silent; [apply get_field_silent|]; intros ?.
  apply bind_silent; [apply get_index0_silent|]; intros ?.
  apply get_field_silent.
Qed.

(** The sentiment client reads [date], [close] and [volume] of each of the
    first 20 days, so it fulfils only if the most recent day, when there is
    one, is not [undefined] or [null]. *)
Lemma recentData_fulfilled_head (day : value) (older recent : list value) :
  fst (recentData (VArr (day :: older))) = Fulfilled recent → nullish day = false.
Proof.
  unfold recentData. rewrite fst_bind. simpl. rewrite fst_bind.
  unfold date_close_volume at 1. rewrite fst_bind.
  destruct (fst (get_field day "date")) as [d|e] eqn:Hd; [|discriminate].
  intros _. exact (get_field_fulfilled _ _ _ Hd).
Qed.

(** The [catch] block of the sentiment client always rethrows. *)
Lemma gemini_catch_rejects (error : error) :
  ∃ e, fst (match response error with
            | Some data => get_field data "error" ;;; ret tt
            | None => ret tt
            end ;;;
            throw (A := value) (new_Error "Failed to get analysis from Gemini API."))
       = Rejected e.
Proof.
  rewrite fst_bind. destruct (response error) as [d|]; simpl; [|eauto].
  rewrite fst_bind. destruct (fst (get_field d "error")); simpl; eauto.
Qed.

(** The sentiment client fulfils exactly when the key is set, the recent data
    can be built, the POST is answered, the answer has a usable first
    candidate and its text parses; it then returns the parsed value. In every
    other case it rejects. *)
Lemma getGeminiAnalysis_fulfils (T : string) (h parsed : value) :
  fst (getGeminiAnalysis env w T h) = Fulfilled parsed ↔
  env_set (GEMINI_API_KEY env) = true
  ∧ ∃ recent data candidates text,
      fst (recentData h) = Fulfilled recent
      ∧ axios_post w (GEMINI_API_URL env) (Prompt T recent) = Fulfilled data
      ∧ fst (get_field data "candidates") = Fulfilled candidates
      ∧ truthy candidates = true
      ∧ length_gt_zero candidates = true
      ∧ fst (first_candidate_text candidates) = Fulfilled text
      ∧ JSON_parse text = Some parsed.
Proof.
  unfold getGeminiAnalysis. rewrite fst_bind. simpl. split.
  - destruct (env_set (GEMINI_API_KEY env)); simpl; [|discriminate].
    rewrite fst_bind.
    destruct (fst (recentData h)) as [recent|e] eqn:Hr; [|discriminate].
    rewrite fst_try_catch, fst_bind. simpl.
    destruct (axios_post w (GEMINI_API_URL env) (Prompt T recent)) as [data|e] eqn:Hp.
    2:{ intros Hc. destruct (gemini_catch_rejects e) as [e' He']. congruence. }
    rewrite fst_bind.
    destruct (fst (get_field data "candidates")) as [candidates|e] eqn:Hc.
    2:{ intros Hx. destruct (gemini_catch_rejects e) as [e' He']. congruence. }
    destruct (truthy candidates) eqn:Ht, (length_gt_zero candidates) eqn:Hl; simpl;
      try (intros Hx;
           destruct (gemini_catch_rejects
                       (new_Error "Invalid response structure from Gemini API."))
             as [e' He']; simpl in *; congruence).
    rewrite fst_bind.
    destruct (fst (first_candidate_text candidates)) as [text|e] eqn:Hx.
    2:{ intros Hy. destruct (gemini_catch_rejects e) as [e' He']. congruence. }
    destruct (JSON_parse text) as [v|] eqn:Hj; simpl.
    + intros [= <-]. split; [reflexivity|].
      exists recent, data, candidates, text. repeat split; assumption.
    + discriminate.
  - intros (Hk & recent & data & candidates & text & Hr & Hp & Hc & Ht & Hl & Hx & Hj).
    rewrite Hk. simpl. rewrite fst_bind, Hr, fst_try_catch, fst_bind. simpl.
    rewrite Hp, fst_bind, Hc, Ht, Hl. simpl. rewrite fst_bind, Hx, Hj. reflexivity.
Qed.

Lemma getGeminiAnalysis_events (T : string) (h : value) :
  snd (getGeminiAnalysis env w T h) =
  Entered_getGeminiAnalysis T h ::
  match env_set (GEMINI_API_KEY env), fst (recentData h) with
  | true, Fulfilled recent => [HttpPost (GEMINI_API_URL env) (Prompt T recent)]
  | _, _ => []
  end.
Proof.
  unfold getGeminiAnalysis. rewrite snd_bind. simpl. f_equal.
  destruct (env_set (GEMINI_API_KEY env)); simpl; [|reflexivity].
  rewrite snd_bind, recentData_silent. simpl.
  destruct (fst (recentData h)) as [recent|e]; [|reflexivity].
  rewrite snd_try_catch, snd_bind, fst_bind. unfold http_post at 1 2 3. simpl.
  f_equal.
  assert (Hcatch : ∀ error : error,
    snd (match response error with
         | Some data => get_field data "error" ;;; ret tt
         | None => ret tt
         end ;;;
         throw (A := value) (new_Error "Failed to get analysis from Gemini API."))
    = []).
  { intros error. apply bind_silent; [|reflexivity].
    destruct (response error); [|reflexivity].
    apply bind_silent; [apply get_field_silent | reflexivity]. }
  destruct (axios_post w (GEMINI_API_URL env) (Prompt T recent)) as [data|e];
    [|apply Hcatch].
  rewrite snd_bind, get_field_silent, fst_bind. simpl.
  destruct (fst (get_field data "candidates")) as [candidates|e]; [|apply Hcatch].
  destruct (truthy candidates && length_gt_zero candidates); [|apply Hcatch].
  rewrite snd_bind, first_candidate_text_silent, fst_bind. simpl.
  destruct (fst (first_candidate_text candidates)) as [text|e]; [|apply Hcatch].
  destruct (JSON_parse text); [reflexivity | apply Hcatch].
Qed.

(** The failures the sentiment client can meet once its key is set and the
    recent data is built: a rejected POST, no usable candidate in the answer,
    or a first candidate whose text is missing or does not parse. Each of
    them makes the client reject. *)
Lemma sentiment_failure_modes (T : string) (h : value) (recent : list value) :
  fst (recentData h) = Fulfilled recent →
  (∃ e0, axios_post w (GEMINI_API_URL env) (Prompt T recent) = Rejected e0)
  ∨ (∃ data, axios_post w (GEMINI_API_URL env) (Prompt T recent) = Fulfilled data
       ∧ ∀ candidates, fst (get_field data "candidates") = Fulfilled candidates →
           truthy candidates && length_gt_zero candidates = false)
  ∨ (∃ data candidates,
       axios_post w (GEMINI_API_URL env) (Prompt T recent) = Fulfilled data
       ∧ fst (get_field data "candidates") = Fulfilled candidates
       ∧ ∀ text, fst (first_candidate_text candidates) = Fulfilled text →
           JSON_parse text = None) →
  ∃ e, fst (getGeminiAnalysis env w T h) = Rejected e.
Proof.
  intros Hr Hmode.
  destruct (fst (getGeminiAnalysis env w T h)) as [parsed|e] eqn:Hg; [|eauto].
  exfalso. apply getGeminiAnalysis_fulfils in Hg
    as (_ & recent' & data & candidates & text & Hr' & Hp & Hc & Ht & Hl & Hx & Hj).
  assert (recent' = recent) as -> by congruence.
  destruct Hmode as [(e0 & He0)|[(data' & Hp' & Hno)|(data' & c' & Hp' & Hc' & Hno)]].
  - congruence.
  - assert (data' = data) as -> by congruence.
    specialize (Hno _ Hc). rewrite Ht, Hl in Hno. discriminate.
  - assert (data' = data) as -> by congruence.
    assert (c' = candidates) as -> by congruence.
    specialize (Hno _ Hx). congruence.
Qed.

(** ** The [try] block *)

(** The events of the [try] block: those of the two data clients, then those
    of the sentiment client when it is reached. *)
Lemma assemble_events (T : string) :
  snd (assemble env w T) =
  snd (getHistoricalData env w T) ++ snd (getNewsData env w T)
  ++ match fst (getHistoricalData env w T), fst (getNewsData env w T) with
     | Fulfilled h, Fulfilled _ => snd (getGeminiAnalysis env w T h)
     | _, _ => []
     end.
Proof.
  unfold assemble.
  rewrite snd_bind, Promise_all2_events, fst_Promise_all2, <- app_assoc.
  do 2 f_equal.
  destruct (fst (getHistoricalData env w T)) as [h|e],
           (fst (getNewsData env w T)) as [n|e']; try reflexivity.
  simpl. rewrite snd_bind.
  destruct (fst (getGeminiAnalysis env w T h)) as [a|e]; [|apply app_nil_r].
  rewrite <- (app_nil_r (snd (getGeminiAnalysis env w T h))) at 2. f_equal.
  repeat (apply bind_silent;
          [first [apply get_field_silent | apply get_index0_silent
                 | apply slice_0_20_silent] |]; intros ?).
  reflexivity.
Qed.

(** Every event of the [try] block run for [T] is made on behalf of [T]. *)
Lemma assemble_concerns (T : string) :
  Forall (concerns env T) (snd (assemble env w T)).
Proof.
  rewrite assemble_events, getHistoricalData_events, getNewsData_events.
  repeat first [apply Forall_app_2 | apply Forall_cons_2 | apply Forall_nil_2];
    try reflexivity.
  - destruct (env_set (FMP_API_KEY env)); [|constructor].
    constructor; [left; reflexivity | constructor].
  - destruct (env_set (FMP_API_KEY env)); [|constructor].
    constructor; [right; reflexivity | constructor].
  - destruct (fst (getHistoricalData env w T)) as [h|e],
             (fst (getNewsData env w T)) as [n|e']; try constructor.
    rewrite getGeminiAnalysis_events. constructor; [reflexivity|].
    destruct (env_set (GEMINI_API_KEY env)), (fst (recentData h));
      repeat constructor.
Qed.

(** The [try] block fulfils exactly when the three clients fulfil and the
    reads of the assembly succeed; the result is then built from their
    values. *)
Lemma assemble_fulfils (T : string) (r : result) :
  fst (assemble env w T) = Fulfilled r ↔
  ∃ h n a p re c latest close hi,
    fst (getHistoricalData env w T) = Fulfilled h
    ∧ fst (getNewsData env w T) = Fulfilled n
    ∧ fst (getGeminiAnalysis env w T h) = Fulfilled a
    ∧ fst (get_field a "pulse") = Fulfilled p
    ∧ fst (get_field a "reason") = Fulfilled re
    ∧ fst (get_field a "confidence") = Fulfilled c
    ∧ fst (get_index0 h) = Fulfilled latest
    ∧ fst (get_field latest "close") = Fulfilled close
    ∧ fst (slice_0_20 "historicalData" h) = Fulfilled hi
    ∧ r = {| ticker := T; pulse := p; reason := re; confidence := c;
             analysis_lastPrice := toFixed (parseFloat close) 2;
             history := hi; news := n;
             timestamp := toISOString (new_Date w) |}.
Proof.
  unfold assemble. rewrite fst_bind, fst_Promise_all2. split.
  - destruct (fst (getHistoricalData env w T)) as [h|e]; [|discriminate].
    destruct (fst (getNewsData env w T)) as [n|e]; [|discriminate].
    simpl. rewrite fst_bind.
    destruct (fst (getGeminiAnalysis env w T h)) as [a|e] eqn:Ha; [|discriminate].
    rewrite fst_bind.
    destruct (fst (get_field a "pulse")) as [p|e] eqn:Hp; [|discriminate].
    rewrite fst_bind.
    destruct (fst (get_field a "reason")) as [re|e] eqn:Hre; [|discriminate].
    rewrite fst_bind.
    destruct (fst (get_field a "confidence")) as [c|e] eqn:Hc; [|discriminate].
    rewrite fst_bind.
    destruct (fst (get_index0 h)) as [latest|e] eqn:Hl; [|discriminate].
    rewrite fst_bind.
    destruct (fst (get_field latest "close")) as [close|e] eqn:Hcl; [|discriminate].
    rewrite fst_bind.
    destruct (fst (slice_0_20 "historicalData" h)) as [hi|e] eqn:Hhi; [|discriminate].
    simpl. intros [= <-].
    exists h, n, a, p, re, c, latest, close, hi.
    repeat split; first [assumption | reflexivity].
  - intros (h & n & a & p & re & c & latest & close & hi
            & -> & -> & Ha & Hp & Hre & Hc & Hl & Hcl & Hhi & ->).
    simpl. rewrite fst_bind, Ha, fst_bind, Hp, fst_bind, Hre, fst_bind, Hc,
      fst_bind, Hl, fst_bind, Hcl, fst_bind, Hhi. reflexivity.
Qed.

Lemma assemble_rejected_by_historical (T : string) (e : error) :
  fst (getHistoricalData env w T) = Rejected e →
  fst (assemble env w T) = Rejected e.
Proof.
  intros He. unfold assemble. rewrite fst_bind, fst_Promise_all2, He. reflexivity.
Qed.

Lemma assemble_rejected_by_sentiment (T : string) (h : value) (e : error) :
  fst (getHistoricalData env w T) = Fulfilled h →
  fst (getGeminiAnalysis env w T h) = Rejected e →
  fst (assemble env w T) = Rejected e.
Proof.
  intros Hh He. unfold assemble.
  rewrite fst_bind, fst_Promise_all2, Hh, getNewsData_settles,
    (getHistoricalData_fulfilled_key _ _ Hh).
  simpl. rewrite fst_bind, He. reflexivity.
Qed.

(** With a history of at least one point, a news value and a verdict that is
    not [null], the [try] block fulfils with the result built from them. *)
Lemma assemble_succeeds
  (T : string) (latest : value) (older : list value) (n verdict : value) :
  fst (getHistoricalData env w T) = Fulfilled (VArr (latest :: older)) →
  fst (getNewsData env w T) = Fulfilled n →
  fst (getGeminiAnalysis env w T (VArr (latest :: older))) = Fulfilled verdict →
  nullish verdict = false →
  ∃ p re c close,
    fst (get_field verdict "pulse") = Fulfilled p
    ∧ fst (get_field verdict "reason") = Fulfilled re
    ∧ fst (get_field verdict "confidence") = Fulfilled c
    ∧ fst (get_field latest "close") = Fulfilled close
    ∧ fst (assemble env w T)
      = Fulfilled {| ticker := T; pulse := p; reason := re; confidence := c;
                     analysis_lastPrice := toFixed (parseFloat close) 2;
                     history := VArr (take 20 (latest :: older)); news := n;
                     timestamp := toISOString (new_Date w) |}.
Proof.
  intros Hh Hn Hg Hnn.
  assert (Hlatest : nullish latest = false).
  { apply getGeminiAnalysis_fulfils in Hg as (_ & recent & _ & _ & _ & Hr & _).
    exact (recentData_fulfilled_head _ _ _ Hr). }
  destruct (get_field_not_nullish verdict "pulse" Hnn) as [p Hp].
  destruct (get_field_not_nullish verdict "reason" Hnn) as [re Hre].
  destruct (get_field_not_nullish verdict "confidence" Hnn) as [c Hc].
  destruct (get_field_not_nullish latest "close" Hlatest) as [close Hcl].
  exists p, re, c, close. rewrite Hp, Hre, Hc, Hcl. repeat split.
  apply assemble_fulfils.
  exists (VArr (latest :: older)), n, verdict, p, re, c, latest, close,
    (VArr (take 20 (latest :: older))).
  rewrite Hp, Hre, Hc, Hcl. repeat split; assumption.
Qed.

(** ** The handler *)

(** The cache test, in terms of the entry. *)
Lemma cache_hit_Some (cache : gmap string entry) (T : string) (now : Z) (data : result) :
  cache_hit cache T now = Some data ↔
  ∃ e, cache !! T = Some e ∧ now - entry_timestamp e < 600000 ∧ data = entry_data e.
Proof.
  unfold cache_hit. destruct (cache !! T) as [e|].
  - destruct (Z.ltb_spec (now - entry_timestamp e) 600000) as [Hlt|Hge]; split.
    + intros [= <-]. eauto.
    + intros (e' & [= <-] & _ & ->). reflexivity.
    + discriminate.
    + intros (e' & [= <-] & Hlt & _). lia.
  - split; [discriminate | intros (e & ? & _); discriminate].
Qed.

Lemma cache_hit_None (cache : gmap string entry) (T : string) (now : Z) :
  cache_hit cache T now = None ↔
  cache !! T = None ∨ ∃ e, cache !! T = Some e ∧ 600000 ≤ now - entry_timestamp e.
Proof.
  unfold cache_hit. destruct (cache !! T) as [e|].
  - destruct (Z.ltb_spec (now - entry_timestamp e) 600000) as [Hlt|Hge]; split.
    + discriminate.
    + intros [?|(e' & [= <-] & Hge)]; [discriminate | lia].
    + intros _. right. eauto.
    + reflexivity.
  - split; [auto | reflexivity].
Qed.

(** On a valid ticker that misses the cache, the handler is its [try] block:
    a fulfilled block is cached and sent, a rejected one becomes a 500. *)
Lemma market_pulse_miss (cache : gmap string entry) (req : request) :
  let T := toUpperCase (params_ticker req) in
  ticker_regex_test T = true →
  cache_hit cache T (Date_now w) = None →
  market_pulse env w cache req =
  match fst (assemble env w T) with
  | Fulfilled r =>
      (Reply 200 (JsonResult r), <[T := Entry (Date_now w) r]> cache,
       snd (assemble env w T))
  | Rejected e =>
      (Reply 500 (JsonError (message e)), cache, snd (assemble env w T))
  end.
Proof.
  intros T Hv Hm. unfold market_pulse. fold T. rewrite Hv, Hm. simpl.
  destruct (assemble env w T) as [[r|e] t]; reflexivity.
Qed.

(** A rejected historical client turns a valid miss into a 500 that
    carries its message and leaves the cache alone. *)
Lemma rejected_history_is_a_500
  (cache : gmap string entry) (req : request) (e : error) :
  let T := toUpperCase (params_ticker req) in
  ticker_regex_test T = true →
  cache_hit cache T (Date_now w) = None →
  fst (getHistoricalData env w T) = Rejected e →
  ∃ events,
    market_pulse env w cache req
    = (Reply 500 (JsonError (message e)), cache, events).
Proof.
  intros T Hv Hm He. exists (snd (assemble env w T)).
  rewrite (market_pulse_miss cache req Hv Hm). fold T.
  rewrite (assemble_rejected_by_historical T e He). reflexivity.
Qed.

(** ** The specified properties *)

(** C1. For a ticker [T] that passes validation and a request arriving at
    [now]: the lookup hits exactly when the cache has an entry for [T] whose
    timestamp is less than 600000 ms before [now]; on a hit the handler
    replies with the cached result, leaves the cache as it is and makes no
    call at all; on an absent or stale entry it enters the historical client
    and the news client for [T], and with a provider key it issues both GET
    requests. *)
Theorem cache_hit_iff_fresh_entry (cache : gmap string entry) (req : request) :
  let T := toUpperCase (params_ticker req) in
  let now := Date_now w in
  ticker_regex_test T = true →
  (is_Some (cache_hit cache T now)
   ↔ ∃ e, cache !! T = Some e ∧ now - entry_timestamp e < 600000)
  ∧ (∀ e, cache !! T = Some e → now - entry_timestamp e < 600000 →
       market_pulse env w cache req
       = (Reply 200 (JsonResult (entry_data e)), cache, []))
  ∧ (cache !! T = None
     ∨ (∃ e, cache !! T = Some e ∧ 600000 ≤ now - entry_timestamp e) →
       ∃ reply cache' rest,
         market_pulse env w cache req
         = (reply, cache', Entered_getHistoricalData T :: rest)
         ∧ Entered_getNewsData T ∈ rest
         ∧ (env_set (FMP_API_KEY env) = true →
            HttpGet (historical_url env T) ∈ rest
            ∧ HttpGet (news_url env T) ∈ rest)).
Proof.
  intros T now Hv. split; [|split].
  - split.
    + intros [data Hd]. apply cache_hit_Some in Hd as (e & He & Hlt & _). eauto.
    + intros (e & He & Hlt). exists (entry_data e). apply cache_hit_Some. eauto.
  - intros e He Hlt. unfold market_pulse. fold T now. rewrite Hv. simpl.
    assert (Hhit : cache_hit cache T now = Some (entry_data e))
      by (apply cache_hit_Some; eauto).
    rewrite Hhit. reflexivity.
  - intros Hmiss. apply cache_hit_None in Hmiss.
    pose proof (market_pulse_miss cache req Hv Hmiss) as Hm. fold T in Hm.
    pose proof (assemble_events T) as Hev.
    rewrite getHistoricalData_events, getNewsData_events in Hev. simpl in Hev.
    destruct (fst (assemble env w T)) as [r|e];
      eexists _, _, _; (split; [rewrite Hm, Hev; reflexivity|]);
      (split; [set_solver|]); intros ->; set_solver.
Qed.

(** C2. The handler uppercases the raw ticker and accepts it exactly when the
    uppercased string consists of one to ten characters among [A-Z], [0-9],
    [.] and [-]. A rejected ticker is answered with status 400 and the body
    [{error: 'Invalid ticker format.'}], with no call made and the cache
    untouched. An accepted ticker is never answered with 400, and everything
    that follows is done for the uppercased ticker [T]: the cache is looked
    up at [T]; on a miss every client call and HTTP request is made for [T],
    a result carries [T] and is stored under [T]; and no other key of the
    cache changes. *)
Theorem ticker_validation (cache : gmap string entry) (req : request) :
  let T := toUpperCase (params_ticker req) in
  let now := Date_now w in
  (ticker_regex_test T = true ↔
   (1 ≤ String.length T ≤ 10)%nat
   ∧ Forall (fun c : ascii =>
               (nat_of_ascii "A" ≤ nat_of_ascii c ≤ nat_of_ascii "Z")%nat
               ∨ (nat_of_ascii "0" ≤ nat_of_ascii c ≤ nat_of_ascii "9")%nat
               ∨ c = "."%char ∨ c = "-"%char)
            (list_ascii_of_string T))
  ∧ (ticker_regex_test T = false →
     market_pulse env w cache req
     = (Reply 400 (JsonError "Invalid ticker format."), cache, []))
  ∧ (ticker_regex_test T = true →
     ∃ reply cache' events,
       market_pulse env w cache req = (reply, cache', events)
       ∧ status reply ≠ 400%nat
       ∧ (∀ data, cache_hit cache T now = Some data →
            reply = Reply 200 (JsonResult data) ∧ cache' = cache ∧ events = [])
       ∧ (cache_hit cache T now = None →
            (∃ rest, events = Entered_getHistoricalData T :: rest)
            ∧ ∀ r, json reply = JsonResult r →
                ticker r = T ∧ cache' = <[T := Entry now r]> cache)
       ∧ Forall (concerns env T) events
       ∧ ∀ k, k ≠ T → cache' !! k = cache !! k).
Proof.
  intros T now. split; [apply ticker_regex_test_language|]. split.
  - intros Hv. unfold market_pulse. fold T. rewrite Hv. reflexivity.
  - intros Hv. destruct (cache_hit cache T now) as [data|] eqn:Hhit.
    + exists (Reply 200 (JsonResult data)), cache, [].
      split; [|split; [|split; [|split; [|split]]]].
      * unfold market_pulse. fold T now. rewrite Hv, Hhit. reflexivity.
      * discriminate.
      * intros ? [= <-]. auto.
      * discriminate.
      * constructor.
      * reflexivity.
    + pose proof (market_pulse_miss cache req Hv Hhit) as Hm. fold T now in Hm.
      pose proof (assemble_concerns T) as Hc.
      pose proof (assemble_events T) as Hev.
      rewrite getHistoricalData_events in Hev. simpl in Hev.
      destruct (fst (assemble env w T)) as [r|e] eqn:Ha.
      * exists (Reply 200 (JsonResult r)), (<[T := Entry now r]> cache),
          (snd (assemble env w T)).
        split; [exact Hm|]. split; [discriminate|]. split; [discriminate|].
        split; [|split; [exact Hc|]].
        -- intros _. split; [rewrite Hev; eauto|].
           intros r' [= <-]. split; [|reflexivity].
           apply assemble_fulfils in Ha
             as (? & ? & ? & ? & ? & ? & ? & ? & ? & _ & _ & _ & _ & _ & _ & _ & _ & _ & ->).
           reflexivity.
        -- intros k Hk. apply lookup_insert_ne. congruence.
      * exists (Reply 500 (JsonError (message e))), cache, (snd (assemble env w T)).
        split; [exact Hm|]. split; [discriminate|]. split; [discriminate|].
        split; [|split; [exact Hc|reflexivity]].
        intros _. split; [rewrite Hev; eauto|]. discriminate.
Qed.

(** C3. When the historical client fails on a valid ticker that misses the
    cache, the handler answers 500 with the message of that failure, the
    cache is left exactly as it was, and the sentiment client is neither
    entered nor sent a request; the reply carries no news. The failures of
    the historical client are those of [getHistoricalData_rejects]. *)
Theorem historical_failure_is_fatal
  (cache : gmap string entry) (req : request) (e : error) :
  let T := toUpperCase (params_ticker req) in
  ticker_regex_test T = true →
  cache_hit cache T (Date_now w) = None →
  fst (getHistoricalData env w T) = Rejected e →
  ∃ events,
    market_pulse env w cache req
    = (Reply 500 (JsonError (message e)), cache, events)
    ∧ Forall (fun ev => sentiment_event ev = false) events.
Proof.
  intros T Hv Hm He.
  exists (snd (assemble env w T)). split.
  - rewrite (market_pulse_miss cache req Hv Hm). fold T.
    rewrite (assemble_rejected_by_historical T e He). reflexivity.
  - rewrite assemble_events, He, getHistoricalData_events, getNewsData_events.
    destruct (env_set (FMP_API_KEY env)); repeat constructor.
Qed.

(** C4, amended. With a provider key, whenever the GET of the news client is
    rejected (network error, non-success status) or answered with a falsy
    payload, the news client yields the empty array and propagates nothing;
    and on a valid ticker that misses the cache, with a history of at least
    one point and a verdict that is not [null], the handler still answers 200
    with [news] empty and with the [pulse], [reason] and [confidence] of the
    verdict. *)
Theorem news_failure_is_absorbed
  (cache : gmap string entry) (req : request)
  (latest : value) (older : list value) (verdict : value) :
  let T := toUpperCase (params_ticker req) in
  ticker_regex_test T = true →
  cache_hit cache T (Date_now w) = None →
  fst (getHistoricalData env w T) = Fulfilled (VArr (latest :: older)) →
  fst (getGeminiAnalysis env w T (VArr (latest :: older))) = Fulfilled verdict →
  nullish verdict = false →
  (∀ data, axios_get w (news_url env T) = Fulfilled data → truthy data = false) →
  fst (getNewsData env w T) = Fulfilled (VArr [])
  ∧ ∃ r events,
      market_pulse env w cache req
      = (Reply 200 (JsonResult r), <[T := Entry (Date_now w) r]> cache, events)
      ∧ news r = VArr []
      ∧ fst (get_field verdict "pulse") = Fulfilled (pulse r)
      ∧ fst (get_field verdict "reason") = Fulfilled (reason r)
      ∧ fst (get_field verdict "confidence") = Fulfilled (confidence r).
Proof.
  intros T Hv Hm Hh Hg Hnn Hfail.
  assert (Hnews : fst (getNewsData env w T) = Fulfilled (VArr [])).
  { rewrite getNewsData_settles, (getHistoricalData_fulfilled_key _ _ Hh).
    destruct (axios_get w (news_url env T)) as [data|e]; [|reflexivity].
    rewrite (Hfail data eq_refl). reflexivity. }
  split; [exact Hnews|].
  destruct (assemble_succeeds T latest older (VArr []) verdict Hh Hnews Hg Hnn)
    as (p & re & c & close & Hp & Hre & Hc & _ & Ha).
  pose proof (market_pulse_miss cache req Hv Hm) as Hmp. fold T in Hmp.
  rewrite Ha in Hmp. eexists _, _. split; [exact Hmp|].
  simpl. auto.
Qed.

(** C5. On a valid ticker that misses the cache and whose history was
    fetched. Whenever the sentiment client fails, the handler answers 500
    with the message of that failure (no result, hence no partial one) and
    leaves the cache exactly as it was; and the client does fail when the
    POST is rejected, when the answer has no usable candidate, and when the
    text of the first candidate is missing or does not parse. The client
    checks nothing else: a text that parses, to JSON of whatever shape, is
    its verdict. A verdict that is [null] or [undefined] makes the assembly
    throw, which is a 500 as well. Any other verdict, on a history with a
    first point, is answered 200 and cached, with the [pulse], [reason] and
    [confidence] that reading these properties of the verdict gives:
    [undefined] for all three when the verdict is not an object. *)
Theorem sentiment_failure_is_fatal
  (cache : gmap string entry) (req : request) (h : value) :
  let T := toUpperCase (params_ticker req) in
  ticker_regex_test T = true →
  cache_hit cache T (Date_now w) = None →
  fst (getHistoricalData env w T) = Fulfilled h →
  (∀ e, fst (getGeminiAnalysis env w T h) = Rejected e →
     ∃ events,
       market_pulse env w cache req
       = (Reply 500 (JsonError (message e)), cache, events))
  ∧ (∀ recent,
       fst (recentData h) = Fulfilled recent →
       (∃ e0, axios_post w (GEMINI_API_URL env) (Prompt T recent) = Rejected e0)
       ∨ (∃ data, axios_post w (GEMINI_API_URL env) (Prompt T recent) = Fulfilled data
            ∧ ∀ candidates, fst (get_field data "candidates") = Fulfilled candidates →
                truthy candidates && length_gt_zero candidates = false)
       ∨ (∃ data candidates,
            axios_post w (GEMINI_API_URL env) (Prompt T recent) = Fulfilled data
            ∧ fst (get_field data "candidates") = Fulfilled candidates
            ∧ ∀ text, fst (first_candidate_text candidates) = Fulfilled text →
                JSON_parse text = None) →
       ∃ e events,
         fst (getGeminiAnalysis env w T h) = Rejected e
         ∧ market_pulse env w cache req
           = (Reply 500 (JsonError (message e)), cache, events))
  ∧ (∀ recent data candidates text parsed,
       env_set (GEMINI_API_KEY env) = true →
       fst (recentData h) = Fulfilled recent →
       axios_post w (GEMINI_API_URL env) (Prompt T recent) = Fulfilled data →
       fst (get_field data "candidates") = Fulfilled candidates →
       truthy candidates = true →
       length_gt_zero candidates = true →
       fst (first_candidate_text candidates) = Fulfilled text →
       JSON_parse text = Some parsed →
       fst (getGeminiAnalysis env w T h) = Fulfilled parsed
       ∧ (nullish parsed = true →
          ∃ events,
            market_pulse env w cache req
            = (Reply 500 (JsonError (message (TypeError_read parsed "pulse"))),
               cache, events))
       ∧ (nullish parsed = false →
          (∃ latest older, h = VArr (latest :: older)) →
          ∃ r events,
            market_pulse env w cache req
            = (Reply 200 (JsonResult r), <[T := Entry (Date_now w) r]> cache, events)
            ∧ fst (get_field parsed "pulse") = Fulfilled (pulse r)
            ∧ fst (get_field parsed "reason") = Fulfilled (reason r)
            ∧ fst (get_field parsed "confidence") = Fulfilled (confidence r)
            ∧ ((∀ props, parsed ≠ VObj props) →
               pulse r = VUndefined ∧ reason r = VUndefined
               ∧ confidence r = VUndefined))).
Proof.
  intros T Hv Hm Hh.
  pose proof (market_pulse_miss cache req Hv Hm) as Hmp. fold T in Hmp.
  assert (Hfatal : ∀ e, fst (getGeminiAnalysis env w T h) = Rejected e →
    ∃ events,
      market_pulse env w cache req
      = (Reply 500 (JsonError (message e)), cache, events)).
  { intros e He. exists (snd (assemble env w T)).
    rewrite Hmp, (assemble_rejected_by_sentiment T h e Hh He). reflexivity. }
  split; [exact Hfatal|]. split.
  - intros recent Hr Hmode.
    destruct (sentiment_failure_modes T h recent Hr Hmode) as [e He].
    destruct (Hfatal e He) as [events Hout]. eauto.
  - intros recent data candidates text parsed Hkey Hr Hp Hc Ht Hl Hx Hj.
    assert (Hg : fst (getGeminiAnalysis env w T h) = Fulfilled parsed).
    { apply getGeminiAnalysis_fulfils. split; [exact Hkey|].
      exists recent, data, candidates, text. auto 10. }
    split; [exact Hg|]. split.
    + intros Hnull. exists (snd (assemble env w T)).
      assert (Ha : fst (assemble env w T) = Rejected (TypeError_read parsed "pulse")).
      { unfold assemble.
        rewrite fst_bind, fst_Promise_all2, Hh, getNewsData_settles,
          (getHistoricalData_fulfilled_key _ _ Hh).
        simpl. rewrite fst_bind, Hg, fst_bind.
        destruct parsed; simpl in *; try discriminate; reflexivity. }
      rewrite Hmp, Ha. reflexivity.
    + intros Hnn (latest & older & ->).
      assert (Hnews : ∃ n, fst (getNewsData env w T) = Fulfilled n)
        by (rewrite getNewsData_settles, (getHistoricalData_fulfilled_key _ _ Hh);
            eauto).
      destruct Hnews as [n Hnews].
      destruct (assemble_succeeds T latest older n parsed Hh Hnews Hg Hnn)
        as (p & re & c & close & Hpu & Hre & Hco & _ & Ha).
      rewrite Ha in Hmp. eexists _, _. split; [exact Hmp|]. simpl.
      split; [exact Hpu|]. split; [exact Hre|]. split; [exact Hco|].
      intros Hshape. revert Hpu Hre Hco.
      destruct parsed as [| | | | | |props]; simpl in *; try discriminate;
        try (intros [= <-] [= <-] [= <-]; auto).
      exfalso. exact (Hshape props eq_refl).
Qed.

(** C6. On a valid ticker that misses the cache, with a history of [n >= 1]
    points, a fetched news value and a verdict of the sentiment client: if
    the verdict is not [null] the handler answers 200, and in every 200
    answer [analysis.lastPrice] is the [close] of the first point passed
    through [parseFloat] and [toFixed(2)], [history] is the first
    [min n 20] points in their order, [news] is the value the news client
    gave, and [pulse], [reason], [confidence] are the properties of that name
    of the verdict. *)
Theorem result_assembly
  (cache : gmap string entry) (req : request)
  (points : list value) (news_value verdict : value) :
  let T := toUpperCase (params_ticker req) in
  ticker_regex_test T = true →
  cache_hit cache T (Date_now w) = None →
  fst (getHistoricalData env w T) = Fulfilled (VArr points) →
  (1 ≤ length points)%nat →
  fst (getNewsData env w T) = Fulfilled news_value →
  fst (getGeminiAnalysis env w T (VArr points)) = Fulfilled verdict →
  (nullish verdict = false →
   ∃ r events,
     market_pulse env w cache req
     = (Reply 200 (JsonResult r), <[T := Entry (Date_now w) r]> cache, events))
  ∧ ∀ r cache' events,
      market_pulse env w cache req = (Reply 200 (JsonResult r), cache', events) →
      (∃ latest close,
         head points = Some latest
         ∧ fst (get_field latest "close") = Fulfilled close
         ∧ analysis_lastPrice r = toFixed (parseFloat close) 2)
      ∧ history r = VArr (take 20 points)
      ∧ length (take 20 points) = Nat.min (length points) 20
      ∧ news r = news_value
      ∧ fst (get_field verdict "pulse") = Fulfilled (pulse r)
      ∧ fst (get_field verdict "reason") = Fulfilled (reason r)
      ∧ fst (get_field verdict "confidence") = Fulfilled (confidence r).
Proof.
  intros T Hv Hm Hh Hn Hnews Hg.
  pose proof (market_pulse_miss cache req Hv Hm) as Hmp. fold T in Hmp.
  destruct points as [|latest older]; [simpl in Hn; lia|].
  split.
  - intros Hnn.
    destruct (assemble_succeeds T latest older news_value verdict Hh Hnews Hg Hnn)
      as (p & re & c & close & _ & _ & _ & _ & Ha).
    rewrite Ha in Hmp. eauto.
  - intros r cache' events Hok. rewrite Hmp in Hok.
    destruct (fst (assemble env w T)) as [r'|e] eqn:Ha; [|discriminate].
    injection Hok as <- _ _.
    apply assemble_fulfils in Ha
      as (h & n & a & p & re & c & l & close & hi
          & Hh' & Hn' & Ha & Hp & Hre & Hc & Hl & Hcl & Hhi & ->).
    assert (h = VArr (latest :: older)) as -> by congruence.
    assert (n = news_value) as -> by congruence.
    assert (a = verdict) as -> by congruence.
    simpl in Hl, Hhi. injection Hl as <-. injection Hhi as <-.
    cbn [history news pulse reason confidence analysis_lastPrice].
    repeat split; try assumption.
    + exists latest, close. auto.
    + rewrite length_take. apply Nat.min_comm.
Qed.

(** C7, amended. The entry written on a successful miss is stored under the
    uppercased ticker and its timestamp is the instant read by [Date.now()]
    when the request arrived, before validation, lookup and fetches; the
    instant of the assembly is the one printed in the [timestamp] of the
    result. *)
Theorem cache_entry_timestamp_is_arrival
  (cache : gmap string entry) (req : request)
  (r : result) (cache' : gmap string entry) (events : list event) :
  let T := toUpperCase (params_ticker req) in
  ticker_regex_test T = true →
  cache_hit cache T (Date_now w) = None →
  market_pulse env w cache req = (Reply 200 (JsonResult r), cache', events) →
  cache' !! T = Some {| entry_timestamp := Date_now w; entry_data := r |}
  ∧ timestamp r = toISOString (new_Date w).
Proof.
  intros T Hv Hm Hok. rewrite (market_pulse_miss cache req Hv Hm) in Hok. fold T in Hok.
  destruct (fst (assemble env w T)) as [r'|e] eqn:Ha; [|discriminate].
  injection Hok as <- <- _. split; [apply lookup_insert_eq|].
  apply assemble_fulfils in Ha
    as (? & ? & ? & ? & ? & ? & ? & ? & ? & _ & _ & _ & _ & _ & _ & _ & _ & _ & ->).
  reflexivity.
Qed.

(** C8, amended. In every 200 answer assembled on a miss, [pulse] and
    [confidence] are the properties of that name of the value [JSON.parse]
    made of the text of the first candidate, whatever they are: the handler
    neither checks nor changes them. *)
Theorem verdict_is_passed_through
  (cache : gmap string entry) (req : request)
  (r : result) (cache' : gmap string entry) (events : list event) :
  let T := toUpperCase (params_ticker req) in
  ticker_regex_test T = true →
  cache_hit cache T (Date_now w) = None →
  market_pulse env w cache req = (Reply 200 (JsonResult r), cache', events) →
  ∃ h recent data candidates text parsed,
    fst (getHistoricalData env w T) = Fulfilled h
    ∧ fst (recentData h) = Fulfilled recent
    ∧ axios_post w (GEMINI_API_URL env) (Prompt T recent) = Fulfilled data
    ∧ fst (get_field data "candidates") = Fulfilled candidates
    ∧ fst (first_candidate_text candidates) = Fulfilled text
    ∧ JSON_parse text = Some parsed
    ∧ fst (get_field parsed "pulse") = Fulfilled (pulse r)
    ∧ fst (get_field parsed "confidence") = Fulfilled (confidence r).
Proof.
  intros T Hv Hm Hok. rewrite (market_pulse_miss cache req Hv Hm) in Hok. fold T in Hok.
  destruct (fst (assemble env w T)) as [r'|e] eqn:Ha; [|discriminate].
  injection Hok as <- _ _.
  apply assemble_fulfils in Ha
    as (h & n & a & p & re & c & l & close & hi
        & Hh & _ & Ha & Hp & _ & Hc & _ & _ & _ & ->).
  apply getGeminiAnalysis_fulfils in Ha
    as (_ & recent & data & candidates & text & Hr & Hpost & Hcs & _ & _ & Hx & Hj).
  exists h, recent, data, candidates, text, a. simpl. repeat split; assumption.
Qed.

(** C9, amended. In every 200 answer assembled on a miss, the news client
    asked the provider for five items ([limit=5] in the URL of its GET) and
    [news] is the payload it received, unchanged when truthy, and the empty
    array when the payload is falsy or the GET was rejected; so [news] has at
    most five items whenever the provider answers with an array of at most
    five. *)
Theorem news_is_the_provider_payload
  (cache : gmap string entry) (req : request)
  (r : result) (cache' : gmap string entry) (events : list event) :
  let T := toUpperCase (params_ticker req) in
  ticker_regex_test T = true →
  cache_hit cache T (Date_now w) = None →
  market_pulse env w cache req = (Reply 200 (JsonResult r), cache', events) →
  HttpGet ("https://financialmodelingprep.com/api/v3/stock_news?tickers="
           +:+ T +:+ "&limit=5&apikey=" +:+ env_text (FMP_API_KEY env)) ∈ events
  ∧ news r = match axios_get w (news_url env T) with
             | Fulfilled data => if truthy data then data else VArr []
             | Rejected _ => VArr []
             end
  ∧ ∀ items, axios_get w (news_url env T) = Fulfilled (VArr items) →
      (length items ≤ 5)%nat →
      ∃ items', news r = VArr items' ∧ (length items' ≤ 5)%nat.
Proof.
  intros T Hv Hm Hok. rewrite (market_pulse_miss cache req Hv Hm) in Hok. fold T in Hok.
  destruct (fst (assemble env w T)) as [r'|e] eqn:Ha; [|discriminate].
  injection Hok as <- _ <-.
  apply assemble_fulfils in Ha
    as (h & n & a & p & re & c & l & close & hi
        & Hh & Hn & _ & _ & _ & _ & _ & _ & _ & ->).
  pose proof (getHistoricalData_fulfilled_key _ _ Hh) as Hkey.
  rewrite getNewsData_settles, Hkey in Hn. injection Hn as <-.
  split; [|split].
  - rewrite assemble_events, getNewsData_events, Hkey.
    change (HttpGet (news_url env T) ∈
            snd (getHistoricalData env w T)
            ++ [Entered_getNewsData T; HttpGet (news_url env T)]
            ++ match fst (getHistoricalData env w T), fst (getNewsData env w T) with
               | Fulfilled h, Fulfilled _ => snd (getGeminiAnalysis env w T h)
               | _, _ => []
               end).
    set_solver.
  - reflexivity.
  - intros items Hitems Hlen. exists items. simpl. rewrite Hitems. auto.
Qed.

(** C10. Without a provider key the news client rejects with
    ['FMP API key not configured.'] instead of yielding an empty array, and a
    valid request that misses the cache is answered 500 with that message and
    leaves the cache as it was. With a key the news client never rejects:
    it always fulfils, and with the empty array whenever its GET is
    rejected. *)
Theorem missing_fmp_key_fails_news (cache : gmap string entry) (req : request) :
  let T := toUpperCase (params_ticker req) in
  (env_set (FMP_API_KEY env) = false →
   fst (getNewsData env w T) = Rejected (new_Error "FMP API key not configured.")
   ∧ (ticker_regex_test T = true →
      cache_hit cache T (Date_now w) = None →
      ∃ events,
        market_pulse env w cache req
        = (Reply 500 (JsonError "FMP API key not configured."), cache, events)))
  ∧ (env_set (FMP_API_KEY env) = true →
     ∃ v, fst (getNewsData env w T) = Fulfilled v
          ∧ ∀ e, axios_get w (news_url env T) = Rejected e → v = VArr []).
Proof.
  intros T. split; intros Hkey.
  - split; [rewrite getNewsData_settles, Hkey; reflexivity|].
    intros Hv Hm.
    assert (Hh : fst (getHistoricalData env w T)
                 = Rejected (new_Error "FMP API key not configured.")).
    { apply getHistoricalData_rejects. left. auto. }
    destruct (rejected_history_is_a_500 cache req _ Hv Hm Hh) as (events & Hev).
    exists events. exact Hev.
  - rewrite getNewsData_settles, Hkey. eexists. split; [reflexivity|].
    intros e ->. reflexivity.
Qed.

End Properties.

(** * The handler at work *)

Import Sample.

(** The example of the specification: 25 days, 3 headlines and a bullish
    verdict give 20 days of history, 3 news items, the last price with two
    decimals, and a cache entry stamped with the arrival of the request. *)
Example all_up_on_empty_cache :
  market_pulse env all_up ∅ AAPL
  = (Reply 200 (JsonResult expected), warm, expected_events).
Proof. vm_compute. reflexivity. Qed.

(** ** C1 at work: the entry of [warm] is fresh 599999 ms after it was
    stamped, and stale one millisecond later. *)

Lemma cache_hit_iff_fresh_entry_witness :
  ticker_regex_test (toUpperCase (params_ticker AAPL)) = true
  ∧ (is_Some (cache_hit warm "AAPL" (Date_now (later 599999)))
     ↔ ∃ e, warm !! "AAPL" = Some e
            ∧ Date_now (later 599999) - entry_timestamp e < 600000)
  ∧ market_pulse env (later 599999) warm AAPL
    = (Reply 200 (JsonResult expected), warm, []).
Proof.
  destruct (cache_hit_iff_fresh_entry (H := reference_engine) env (later 599999) warm AAPL
              eq_refl)
    as (Hiff & Hhit & _).
  split; [reflexivity|]. split; [exact Hiff|].
  apply (Hhit (Entry t0 expected)); reflexivity.
Defined.

Example stale_entry_is_refetched :
  ∃ r, market_pulse env (later 600000) warm AAPL
       = (Reply 200 (JsonResult r), <["AAPL" := Entry (t0 + 600000) r]> warm,
          expected_events).
Proof. eexists. vm_compute. reflexivity. Qed.

(** ** C2 at work *)

Lemma ticker_validation_witness :
  ticker_regex_test (toUpperCase "AA PL") = false
  ∧ market_pulse env all_up warm {| params_ticker := "AA PL" |}
    = (Reply 400 (JsonError "Invalid ticker format."), warm, []).
Proof.
  split; [reflexivity|].
  apply (ticker_validation env all_up warm {| params_ticker := "AA PL" |}).
  reflexivity.
Defined.

(** The samples of the specification, before and after the uppercasing. *)
Example ticker_grammar_samples :
  map ticker_regex_test
      [""; "AA PL"; "TOO-LONG-TICKER-1"; "AAPL$"; "aapl";
       "AAPL"; "BRK.B"; "BF-B"; "0123456789"]
  = [false; false; false; false; false; true; true; true; true].
Proof. reflexivity. Qed.

Example uppercased_before_the_test :
  ticker_regex_test (toUpperCase "brk.b") = true
  ∧ ticker (default expected (sent (market_pulse env all_up ∅ {| params_ticker := "brk.b" |})))
    = "BRK.B".
Proof. split; vm_compute; reflexivity. Qed.

(** ** C3 at work: a 503 of the historical endpoint, and an answer without
    [historical]. *)

Lemma historical_failure_is_fatal_witness :
  ticker_regex_test (toUpperCase (params_ticker AAPL)) = true
  ∧ cache_hit ∅ (toUpperCase (params_ticker AAPL)) (Date_now history_down) = None
  ∧ fst (getHistoricalData env history_down (toUpperCase (params_ticker AAPL)))
    = Rejected (status_error "503" (VStr ""))
  ∧ ∃ events,
      market_pulse env history_down ∅ AAPL
      = (Reply 500 (JsonError "Request failed with status code 503"), ∅, events)
      ∧ Forall (fun ev => sentiment_event ev = false) events.
Proof.
  repeat (split; [reflexivity|]).
  apply (historical_failure_is_fatal env history_down ∅ AAPL
           (status_error "503" (VStr ""))); reflexivity.
Defined.

Example no_history_field_is_a_500 :
  market_pulse env no_history_field ∅ AAPL
  = (Reply 500 (JsonError ("No time series data found for " +:+ quoted "AAPL" +:+ ".")),
     ∅,
     [Entered_getHistoricalData "AAPL";
      HttpGet (historical_url env "AAPL");
      Entered_getNewsData "AAPL";
      HttpGet (news_url env "AAPL")]).
Proof. vm_compute. reflexivity. Qed.

(** ** C4: a page of text in place of the news list is passed on as [news] *)

Lemma malformed_news_payload_is_passed_through :
  status (replied (market_pulse env news_page ∅ AAPL)) = 200%nat
  ∧ news <$> sent (market_pulse env news_page ∅ AAPL)
    = Some (VStr "Service temporarily unavailable")
  ∧ VStr "Service temporarily unavailable" ≠ VArr [].
Proof. split; [|split]; [vm_compute; reflexivity .. | discriminate]. Qed.

Lemma news_failure_is_absorbed_witness :
  ticker_regex_test (toUpperCase (params_ticker AAPL)) = true
  ∧ cache_hit ∅ (toUpperCase (params_ticker AAPL)) (Date_now news_down) = None
  ∧ fst (getNewsData env news_down "AAPL") = Fulfilled (VArr [])
  ∧ ∃ r events,
      market_pulse env news_down ∅ AAPL
      = (Reply 200 (JsonResult r), <["AAPL" := Entry t0 r]> ∅, events)
      ∧ news r = VArr []
      ∧ fst (get_field bullish_verdict "pulse") = Fulfilled (pulse r)
      ∧ fst (get_field bullish_verdict "reason") = Fulfilled (reason r)
      ∧ fst (get_field bullish_verdict "confidence") = Fulfilled (confidence r).
Proof.
  split; [reflexivity|]. split; [reflexivity|].
  apply (news_failure_is_absorbed (H := reference_engine) env news_down ∅ AAPL
           (day 0) (map day (seq 1 24)) bullish_verdict);
    try (vm_compute; reflexivity).
  intros data Hd. vm_compute in Hd. discriminate.
Defined.

(** ** C5: a 429 of the model, and an answer in prose, are fatal *)

Lemma sentiment_failure_is_fatal_witness :
  ticker_regex_test (toUpperCase (params_ticker AAPL)) = true
  ∧ cache_hit ∅ (toUpperCase (params_ticker AAPL)) (Date_now model_down) = None
  ∧ fst (getHistoricalData env model_down "AAPL") = Fulfilled (VArr days)
  ∧ fst (getGeminiAnalysis env model_down "AAPL" (VArr days))
    = Rejected (new_Error "Failed to get analysis from Gemini API.")
  ∧ ∃ events,
      market_pulse env model_down ∅ AAPL
      = (Reply 500 (JsonError "Failed to get analysis from Gemini API."), ∅, events).
Proof.
  do 4 (split; [vm_compute; reflexivity|]).
  destruct (sentiment_failure_is_fatal (H := reference_engine) env model_down ∅ AAPL
              (VArr days)) as [Hfatal _]; try (vm_compute; reflexivity).
  apply (Hfatal (new_Error "Failed to get analysis from Gemini API.")).
  vm_compute. reflexivity.
Defined.

(** C5: a text that parses to JSON of another shape is not a failure. An
    array, or an object without the three fields, is answered 200 with
    [pulse], [reason] and [confidence] undefined, and the result is cached
    under the ticker. *)
Lemma unexpected_shape_is_not_a_failure :
  JSON_parse (VStr "[1, 2]") = Some (VArr [VNum 1; VNum 2])
  ∧ fst (getGeminiAnalysis env another_shape "AAPL" (VArr days))
    = Fulfilled (VArr [VNum 1; VNum 2])
  ∧ status (replied (market_pulse env another_shape ∅ AAPL)) = 200%nat
  ∧ pulse <$> sent (market_pulse env another_shape ∅ AAPL) = Some VUndefined
  ∧ reason <$> sent (market_pulse env another_shape ∅ AAPL) = Some VUndefined
  ∧ confidence <$> sent (market_pulse env another_shape ∅ AAPL) = Some VUndefined
  ∧ entry_timestamp <$> (cache_after (market_pulse env another_shape ∅ AAPL) !! "AAPL")
    = Some t0
  ∧ JSON_parse (VStr "{}") = Some (VObj [])
  ∧ status (replied (market_pulse env empty_verdict ∅ AAPL)) = 200%nat
  ∧ pulse <$> sent (market_pulse env empty_verdict ∅ AAPL) = Some VUndefined
  ∧ entry_timestamp <$> (cache_after (market_pulse env empty_verdict ∅ AAPL) !! "AAPL")
    = Some t0.
Proof. repeat split; vm_compute; reflexivity. Qed.

Example prose_is_a_500 :
  market_pulse env model_rambles ∅ AAPL
  = (Reply 500 (JsonError "Failed to get analysis from Gemini API."), ∅,
     expected_events).
Proof. vm_compute. reflexivity. Qed.

(** A verdict that is [null], and a history without a point, are caught by
    the handler as a [TypeError] of the assembly. *)
Example null_verdict_is_a_500 :
  replied (market_pulse env null_verdict ∅ AAPL)
  = Reply 500 (JsonError "Cannot read properties of null (reading 'pulse')")
  ∧ cache_after (market_pulse env null_verdict ∅ AAPL) = ∅.
Proof. split; vm_compute; reflexivity. Qed.

Example empty_history_is_a_500 :
  replied (market_pulse env empty_history ∅ AAPL)
  = Reply 500 (JsonError "Cannot read properties of undefined (reading 'close')")
  ∧ cache_after (market_pulse env empty_history ∅ AAPL) = ∅.
Proof. split; vm_compute; reflexivity. Qed.

(** ** C6 at work *)

Lemma result_assembly_witness :
  ticker_regex_test (toUpperCase (params_ticker AAPL)) = true
  ∧ cache_hit ∅ (toUpperCase (params_ticker AAPL)) (Date_now all_up) = None
  ∧ fst (getHistoricalData env all_up "AAPL") = Fulfilled (VArr days)
  ∧ (1 ≤ length days)%nat
  ∧ fst (getNewsData env all_up "AAPL") = Fulfilled (headlines 3)
  ∧ fst (getGeminiAnalysis env all_up "AAPL" (VArr days)) = Fulfilled bullish_verdict
  ∧ market_pulse env all_up ∅ AAPL
    = (Reply 200 (JsonResult expected), warm, expected_events)
  ∧ (∃ latest close,
       head days = Some latest
       ∧ fst (get_field latest "close") = Fulfilled close
       ∧ analysis_lastPrice expected = toFixed (parseFloat close) 2)
  ∧ history expected = VArr (take 20 days)
  ∧ length (take 20 days) = Nat.min (length days) 20
  ∧ news expected = headlines 3
  ∧ fst (get_field bullish_verdict "pulse") = Fulfilled (pulse expected)
  ∧ fst (get_field bullish_verdict "reason") = Fulfilled (reason expected)
  ∧ fst (get_field bullish_verdict "confidence") = Fulfilled (confidence expected).
Proof.
  assert (Hlen : (1 ≤ length days)%nat) by (vm_compute; lia).
  do 3 (split; [vm_compute; reflexivity|]). split; [exact Hlen|].
  do 3 (split; [vm_compute; reflexivity|]).
  apply (result_assembly (H := reference_engine) env all_up ∅ AAPL days
           (headlines 3) bullish_verdict)
    with (cache' := warm) (events := expected_events);
    first [exact Hlen | vm_compute; reflexivity].
Defined.

(** ** C7: the entry is stamped with the arrival, three seconds before the
    write *)

Lemma cache_entry_is_stamped_before_the_write :
  entry_timestamp <$> (cache_after (market_pulse env all_up ∅ AAPL) !! "AAPL")
  = Some 1700000000000
  ∧ new_Date all_up = 1700000003000
  ∧ 1700000000000 ≠ 1700000003000.
Proof. split; [|split]; [vm_compute; reflexivity .. | discriminate]. Qed.

Lemma cache_entry_timestamp_is_arrival_witness :
  ticker_regex_test (toUpperCase (params_ticker AAPL)) = true
  ∧ cache_hit ∅ (toUpperCase (params_ticker AAPL)) (Date_now all_up) = None
  ∧ market_pulse env all_up ∅ AAPL
    = (Reply 200 (JsonResult expected), warm, expected_events)
  ∧ warm !! "AAPL" = Some {| entry_timestamp := t0; entry_data := expected |}
  ∧ timestamp expected = toISOString t1.
Proof.
  do 3 (split; [vm_compute; reflexivity|]).
  apply (cache_entry_timestamp_is_arrival (H := reference_engine) env all_up ∅ AAPL
           expected warm expected_events);
    vm_compute; reflexivity.
Defined.

(** ** C8: labels outside the vocabularies reach the caller *)

Lemma off_vocabulary_verdict_is_sent :
  status (replied (market_pulse env off_vocabulary ∅ AAPL)) = 200%nat
  ∧ pulse <$> sent (market_pulse env off_vocabulary ∅ AAPL) = Some (VStr "Sideways")
  ∧ confidence <$> sent (market_pulse env off_vocabulary ∅ AAPL) = Some (VStr "Certain")
  ∧ (VStr "Sideways" ∉ [VStr "Bullish"; VStr "Bearish"; VStr "Neutral"])
  ∧ (VStr "Certain" ∉ [VStr "Low"; VStr "Medium"; VStr "High"]).
Proof.
  do 3 (split; [vm_compute; reflexivity|]).
  split; intros Hin; repeat (apply elem_of_cons in Hin as [Hin|Hin]; [discriminate|]);
    inversion Hin.
Qed.

(** JSON of another shape is sent as well, without the three fields. *)
Example another_shape_is_sent :
  status (replied (market_pulse env another_shape ∅ AAPL)) = 200%nat
  ∧ pulse <$> sent (market_pulse env another_shape ∅ AAPL) = Some VUndefined
  ∧ confidence <$> sent (market_pulse env another_shape ∅ AAPL) = Some VUndefined.
Proof. repeat split; vm_compute; reflexivity. Qed.

Lemma verdict_is_passed_through_witness :
  ticker_regex_test (toUpperCase (params_ticker AAPL)) = true
  ∧ cache_hit ∅ (toUpperCase (params_ticker AAPL)) (Date_now all_up) = None
  ∧ market_pulse env all_up ∅ AAPL
    = (Reply 200 (JsonResult expected), warm, expected_events)
  ∧ ∃ h recent data candidates text parsed,
      fst (getHistoricalData env all_up "AAPL") = Fulfilled h
      ∧ fst (recentData h) = Fulfilled recent
      ∧ axios_post all_up (GEMINI_API_URL env) (Prompt "AAPL" recent) = Fulfilled data
      ∧ fst (get_field data "candidates") = Fulfilled candidates
      ∧ fst (first_candidate_text candidates) = Fulfilled text
      ∧ JSON_parse text = Some parsed
      ∧ fst (get_field parsed "pulse") = Fulfilled (pulse expected)
      ∧ fst (get_field parsed "confidence") = Fulfilled (confidence expected).
Proof.
  do 3 (split; [vm_compute; reflexivity|]).
  apply (verdict_is_passed_through (H := reference_engine) env all_up ∅ AAPL
           expected warm expected_events);
    vm_compute; reflexivity.
Defined.

(** ** C9: six items from the provider are six items of [news] *)

Lemma six_headlines_are_sent :
  status (replied (market_pulse env six_headlines ∅ AAPL)) = 200%nat
  ∧ news <$> sent (market_pulse env six_headlines ∅ AAPL) = Some (headlines 6)
  ∧ (∃ items, headlines 6 = VArr items ∧ length items = 6%nat)
  ∧ (5 < 6)%nat.
Proof.
  do 2 (split; [vm_compute; reflexivity|]).
  split; [eexists; split; reflexivity | lia].
Qed.

Lemma news_is_the_provider_payload_witness :
  ticker_regex_test (toUpperCase (params_ticker AAPL)) = true
  ∧ cache_hit ∅ (toUpperCase (params_ticker AAPL)) (Date_now all_up) = None
  ∧ market_pulse env all_up ∅ AAPL
    = (Reply 200 (JsonResult expected), warm, expected_events)
  ∧ HttpGet "https://financialmodelingprep.com/api/v3/stock_news?tickers=AAPL&limit=5&apikey=fmp-key"
    ∈ expected_events
  ∧ news expected = headlines 3.
Proof.
  do 3 (split; [vm_compute; reflexivity|]).
  destruct (news_is_the_provider_payload (H := reference_engine) env all_up ∅ AAPL
              expected warm expected_events)
    as (Hget & Hnews & _); try (vm_compute; reflexivity).
  split; [exact Hget | exact Hnews].
Defined.

(** ** C10 at work: no provider key *)

Lemma missing_fmp_key_fails_news_witness :
  env_set (FMP_API_KEY env_without_fmp) = false
  ∧ fst (getNewsData env_without_fmp all_up "AAPL")
    = Rejected (new_Error "FMP API key not configured.")
  ∧ ∃ events,
      market_pulse env_without_fmp all_up ∅ AAPL
      = (Reply 500 (JsonError "FMP API key not configured."), ∅, events).
Proof.
  split; [reflexivity|].
  destruct (missing_fmp_key_fails_news (H := reference_engine) env_without_fmp all_up
              ∅ AAPL) as [Hmissing _].
  destruct (Hmissing eq_refl) as [Hnews Hreply].
  split; [exact Hnews|]. apply Hreply; reflexivity.
Defined.

(** * Further properties of the handler *)

Section Requests.
Context `{Engine} (env : config) (w : world).

(** The events of the [try] block, case by case. *)
Lemma assemble_trace (T : string) :
  snd (assemble env w T) =
  if env_set (FMP_API_KEY env) then
    [Entered_getHistoricalData T; HttpGet (historical_url env T);
     Entered_getNewsData T; HttpGet (news_url env T)]
    ++ match fst (getHistoricalData env w T) with
       | Fulfilled h =>
           Entered_getGeminiAnalysis T h ::
           match env_set (GEMINI_API_KEY env), fst (recentData h) with
           | true, Fulfilled recent => [HttpPost (GEMINI_API_URL env) (Prompt T recent)]
           | _, _ => []
           end
       | Rejected _ => []
       end
  else [Entered_getHistoricalData T; Entered_getNewsData T].
Proof.
  rewrite assemble_events, getHistoricalData_events, getNewsData_events,
    getNewsData_settles.
  destruct (env_set (FMP_API_KEY env)) eqn:Hkey; simpl.
  - do 4 f_equal.
    destruct (fst (getHistoricalData env w T)) as [h|e]; [|reflexivity].
    apply getGeminiAnalysis_events.
  - destruct (fst (getHistoricalData env w T)) as [h|e] eqn:Hh; [|reflexivity].
    apply getHistoricalData_fulfilled_key in Hh. congruence.
Qed.

(** X1. No retry, no extra call. Whatever the request, the handler makes no call
    at all (invalid ticker or cache hit), or runs through one fixed sequence
    and stops where it fails: both data clients entered without a request
    when the provider key is missing; one GET per data endpoint; then the
    sentiment client entered; then a single POST. No endpoint is requested
    twice and the POST is never made before both GETs. *)
Theorem no_retries (cache : gmap string entry) (req : request) :
  let T := toUpperCase (params_ticker req) in
  let events := snd (market_pulse env w cache req) in
  let fetched := [Entered_getHistoricalData T; HttpGet (historical_url env T);
                  Entered_getNewsData T; HttpGet (news_url env T)] in
  ((ticker_regex_test T = false ∨ is_Some (cache_hit cache T (Date_now w)))
   ∧ events = [])
  ∨ (env_set (FMP_API_KEY env) = false
     ∧ events = [Entered_getHistoricalData T; Entered_getNewsData T])
  ∨ ((∃ e, fst (getHistoricalData env w T) = Rejected e) ∧ events = fetched)
  ∨ (∃ h, fst (getHistoricalData env w T) = Fulfilled h
          ∧ (env_set (GEMINI_API_KEY env) = false
             ∨ ∃ e, fst (recentData h) = Rejected e)
          ∧ events = fetched ++ [Entered_getGeminiAnalysis T h])
  ∨ (∃ h recent, fst (getHistoricalData env w T) = Fulfilled h
                 ∧ fst (recentData h) = Fulfilled recent
                 ∧ events = fetched ++ [Entered_getGeminiAnalysis T h;
                                        HttpPost (GEMINI_API_URL env) (Prompt T recent)]).
Proof.
  intros T events fetched. subst events. unfold market_pulse. fold T.
  destruct (ticker_regex_test T) eqn:Hv; simpl; [|left; auto].
  destruct (cache_hit cache T (Date_now w)) as [data|] eqn:Hhit; simpl;
    [left; split; [right; eauto | reflexivity]|].
  right.
  assert (Hev : snd (match assemble env w T with
                     | (Fulfilled result, events) =>
                         (Reply 200 (JsonResult result),
                          <[T := Entry (Date_now w) result]> cache, events)
                     | (Rejected error, events) =>
                         (Reply 500 (JsonError (message error)), cache, events)
                     end) = snd (assemble env w T)).
  { destruct (assemble env w T) as [[r|e] t]; reflexivity. }
  rewrite Hev, assemble_trace.
  destruct (env_set (FMP_API_KEY env)); [|left; auto].
  right.
  destruct (fst (getHistoricalData env w T)) as [h|e]; [|left; split; [eauto|]].
  2:{ apply app_nil_r. }
  right.
  destruct (env_set (GEMINI_API_KEY env)); [|left; exists h; auto].
  destruct (fst (recentData h)) as [recent|e] eqn:Hr.
  - right. exists h, recent. auto.
  - left. exists h. split; [reflexivity|]. split; [right; eauto | reflexivity].
Qed.

(** ** The sentiment client *)

Lemma for_each_fulfilled {A B} (f : A → async B) (l : list A) (out : list B) :
  fst (for_each f l) = Fulfilled out ↔ Forall2 (fun a b => fst (f a) = Fulfilled b) l out.
Proof.
  revert out. induction l as [|a l IH]; intros out; simpl.
  - split.
    + intros [= <-]. constructor.
    + intros Hf. inversion Hf. reflexivity.
  - rewrite fst_bind. destruct (fst (f a)) as [b|e] eqn:Hb.
    + rewrite fst_bind. destruct (fst (for_each f l)) as [bs|e] eqn:Hbs; simpl.
      * split.
        -- intros [= <-]. constructor; [assumption | apply IH; reflexivity].
        -- intros Hf. inversion Hf as [|? b' ? bs' Hb' Hbs']; subst.
           apply IH in Hbs'. congruence.
      * split; [discriminate|].
        intros Hf. inversion Hf as [|? b' ? bs' Hb' Hbs']; subst.
        apply IH in Hbs'. discriminate.
    + split; [discriminate|].
      intros Hf. inversion Hf as [|? b' ? bs' Hb' Hbs']; subst. congruence.
Qed.

Lemma date_close_volume_fulfilled (day item : value) :
  fst (date_close_volume day) = Fulfilled item ↔
  nullish day = false
  ∧ ∃ date close volume,
      fst (get_field day "date") = Fulfilled date
      ∧ fst (get_field day "close") = Fulfilled close
      ∧ fst (get_field day "volume") = Fulfilled volume
      ∧ item = VObj [("date", date); ("close", close); ("volume", volume)].
Proof.
  unfold date_close_volume. split.
  - rewrite fst_bind.
    destruct (fst (get_field day "date")) as [d|e] eqn:Hd; [|discriminate].
    rewrite fst_bind.
    destruct (fst (get_field day "close")) as [c|e] eqn:Hc; [|discriminate].
    rewrite fst_bind.
    destruct (fst (get_field day "volume")) as [v|e] eqn:Hv; [|discriminate].
    intros [= <-]. split; [exact (get_field_fulfilled _ _ _ Hd)|].
    exists d, c, v. auto.
  - intros (_ & d & c & v & Hd & Hc & Hv & ->).
    rewrite fst_bind, Hd, fst_bind, Hc, fst_bind, Hv. reflexivity.
Qed.

Lemma days_readable (l : list value) :
  (∃ out, fst (for_each date_close_volume l) = Fulfilled out)
  ↔ Forall (fun day => nullish day = false) l.
Proof.
  split.
  - intros [out Hout]. apply for_each_fulfilled in Hout.
    induction Hout as [|a b l l' Hab _ IH]; constructor; [|exact IH].
    apply date_close_volume_fulfilled in Hab as [Hn _]. exact Hn.
  - intros Hall. induction Hall as [|a l Ha _ IH].
    + exists []. reflexivity.
    + destruct IH as [bs Hbs]. apply for_each_fulfilled in Hbs.
      destruct (get_field_not_nullish a "date" Ha) as [d Hd].
      destruct (get_field_not_nullish a "close" Ha) as [c Hc].
      destruct (get_field_not_nullish a "volume" Ha) as [v Hv].
      exists (VObj [("date", d); ("close", c); ("volume", v)] :: bs).
      apply for_each_fulfilled. constructor; [|exact Hbs].
      apply date_close_volume_fulfilled. split; [exact Ha|].
      exists d, c, v. rewrite Hd, Hc, Hv. auto.
Qed.

(** X2. What is sent to the model. The recent data can be built exactly when
    none of the first 20 days is [undefined] or [null]; it then has one item
    per day, at most 20, in the order of the history, and each item carries
    the [date], [close] and [volume] of its day and nothing else of it. *)
Theorem prompt_carries_only_date_close_volume (days : list value) :
  ((∃ recent, fst (recentData (VArr days)) = Fulfilled recent)
   ↔ Forall (fun day => nullish day = false) (take 20 days))
  ∧ ∀ recent, fst (recentData (VArr days)) = Fulfilled recent →
      length recent = Nat.min (length days) 20
      ∧ ∀ i item, recent !! i = Some item →
          ∃ day date close volume,
            days !! i = Some day ∧ (i < 20)%nat
            ∧ fst (get_field day "date") = Fulfilled date
            ∧ fst (get_field day "close") = Fulfilled close
            ∧ fst (get_field day "volume") = Fulfilled volume
            ∧ item = VObj [("date", date); ("close", close); ("volume", volume)].
Proof.
  assert (Hunfold : ∀ recent,
    fst (recentData (VArr days)) = Fulfilled recent ↔
    Forall2 (fun a b => fst (date_close_volume a) = Fulfilled b) (take 20 days) recent).
  { intros recent. unfold recentData. rewrite fst_bind. simpl.
    apply for_each_fulfilled. }
  split.
  - rewrite <- days_readable. split; intros [recent Hr]; exists recent.
    + apply Hunfold, for_each_fulfilled in Hr. exact Hr.
    + apply Hunfold, for_each_fulfilled. exact Hr.
  - intros recent Hr. apply Hunfold in Hr. split.
    + rewrite <- (Forall2_length _ _ _ Hr), length_take. apply Nat.min_comm.
    + intros i item Hi.
      destruct (Forall2_lookup_r _ _ _ _ _ Hr Hi) as (day & Hday & Hitem).
      apply date_close_volume_fulfilled in Hitem
        as (_ & d & c & v & Hd & Hc & Hv & ->).
      apply lookup_take_Some in Hday as [Hday Hlt].
      exists day, d, c, v. repeat split; assumption.
Qed.

(** X3. Whatever goes wrong once the POST is under way (the request itself, the
    shape of the answer, the text of the candidate), the caller of the
    sentiment client sees the one fixed message and none of the detail. The
    single exception comes from the [catch] block itself: when the failed
    request carries a response whose body is [null] or [undefined], reading
    its [error] throws, and that [TypeError] is what leaves the function. *)
Theorem sentiment_errors_are_masked
  (T : string) (h : value) (recent : list value) (e : error) :
  env_set (GEMINI_API_KEY env) = true →
  fst (recentData h) = Fulfilled recent →
  fst (getGeminiAnalysis env w T h) = Rejected e →
  e = new_Error "Failed to get analysis from Gemini API."
  ∨ ∃ e0 data,
      axios_post w (GEMINI_API_URL env) (Prompt T recent) = Rejected e0
      ∧ response e0 = Some data
      ∧ nullish data = true
      ∧ e = TypeError_read data "error".
Proof.
  intros Hkey Hr. unfold getGeminiAnalysis.
  rewrite fst_bind. simpl. rewrite Hkey. simpl.
  rewrite fst_bind, Hr, fst_try_catch, fst_bind. unfold http_post at 1. simpl.
  assert (Hfield : ∀ v name e0, fst (get_field v name) = Rejected e0 →
                                e0 = TypeError_read v name).
  { intros v name e0. destruct v; simpl; congruence. }
  assert (Hindex : ∀ v e0, fst (get_index0 v) = Rejected e0 →
                           e0 = TypeError_read v "0").
  { intros v e0. destruct v as [| | | |[|c s]| |]; simpl; congruence. }
  destruct (axios_post w (GEMINI_API_URL env) (Prompt T recent)) as [data|e0] eqn:Hp.
  - rewrite fst_bind.
    destruct (fst (get_field data "candidates")) as [candidates|e1] eqn:Hc.
    2:{ apply Hfield in Hc as ->. intros He. left. simpl in He. try rewrite fst_bind in He. simpl in He. congruence. }
    destruct (truthy candidates && length_gt_zero candidates).
    2:{ intros He. left. simpl in He. try rewrite fst_bind in He. simpl in He. congruence. }
    rewrite fst_bind.
    destruct (fst (first_candidate_text candidates)) as [text|e1] eqn:Hx.
    + destruct (JSON_parse text); [discriminate|].
      intros He. left. simpl in He. try rewrite fst_bind in He. simpl in He. congruence.
    + assert (∃ v name, e1 = TypeError_read v name) as (v & name & ->).
      { revert Hx. unfold first_candidate_text. rewrite fst_bind.
        destruct (fst (get_index0 candidates)) as [x1|?] eqn:H1;
          [|intros [= <-]; apply Hindex in H1; eauto].
        rewrite fst_bind.
        destruct (fst (get_field x1 "content")) as [x2|?] eqn:H2;
          [|intros [= <-]; apply Hfield in H2; eauto].
        rewrite fst_bind.
        destruct (fst (get_field x2 "parts")) as [x3|?] eqn:H3;
          [|intros [= <-]; apply Hfield in H3; eauto].
        rewrite fst_bind.
        destruct (fst (get_index0 x3)) as [x4|?] eqn:H4;
          [|intros [= <-]; apply Hindex in H4; eauto].
        intros H5. apply Hfield in H5. eauto. }
      intros He. left. simpl in He. try rewrite fst_bind in He. simpl in He. congruence.
  - rewrite fst_bind. destruct (response e0) as [data|] eqn:Hresp; simpl.
    + rewrite fst_bind.
      destruct (fst (get_field data "error")) as [x|e1] eqn:Hx; simpl.
      * intros [= <-]. left. reflexivity.
      * intros [= <-]. right. exists e0, data.
        split; [reflexivity|]. split; [exact Hresp|].
        split; [destruct data; simpl in *; congruence|].
        apply Hfield in Hx. exact Hx.
    + intros [= <-]. left. reflexivity.
Qed.

(** X4. Without a key for the model the handler still fetches the history and the
    news, enters the sentiment client, and only then fails: the reply is a
    500 with the message of the missing key, no POST is made and the cache is
    left as it was. *)
Theorem missing_gemini_key_fails_after_the_fetch
  (cache : gmap string entry) (req : request) (h : value) :
  let T := toUpperCase (params_ticker req) in
  ticker_regex_test T = true →
  cache_hit cache T (Date_now w) = None →
  fst (getHistoricalData env w T) = Fulfilled h →
  env_set (GEMINI_API_KEY env) = false →
  market_pulse env w cache req
  = (Reply 500 (JsonError "Gemini API key not configured."), cache,
     [Entered_getHistoricalData T; HttpGet (historical_url env T);
      Entered_getNewsData T; HttpGet (news_url env T);
      Entered_getGeminiAnalysis T h]).
Proof.
  intros T Hv Hm Hh Hkey.
  assert (Hg : fst (getGeminiAnalysis env w T h)
               = Rejected (new_Error "Gemini API key not configured.")).
  { unfold getGeminiAnalysis. rewrite fst_bind. simpl. rewrite Hkey. reflexivity. }
  rewrite (market_pulse_miss env w cache req Hv Hm). fold T.
  rewrite (assemble_rejected_by_sentiment env w T h _ Hh Hg), assemble_trace,
    (getHistoricalData_fulfilled_key env w _ _ Hh), Hh, Hkey.
  reflexivity.
Qed.

(** X5. The historical client hands on whatever truthy [historical] the provider
    sent. When that is not an array the request fails inside the sentiment
    client before any POST: a string can be sliced but not mapped, anything
    else cannot be sliced; the reply is a 500 with that [TypeError] and the
    cache is left as it was. *)
Theorem history_must_be_an_array
  (cache : gmap string entry) (req : request) (h : value) :
  let T := toUpperCase (params_ticker req) in
  ticker_regex_test T = true →
  cache_hit cache T (Date_now w) = None →
  fst (getHistoricalData env w T) = Fulfilled h →
  env_set (GEMINI_API_KEY env) = true →
  (∀ days, h ≠ VArr days) →
  market_pulse env w cache req
  = (Reply 500 (JsonError match h with
                          | VStr _ => "historicalData.slice(...).map is not a function"
                          | _ => "historicalData.slice is not a function"
                          end),
     cache,
     [Entered_getHistoricalData T; HttpGet (historical_url env T);
      Entered_getNewsData T; HttpGet (news_url env T);
      Entered_getGeminiAnalysis T h]).
Proof.
  intros T Hv Hm Hh Hkey Hna.
  assert (Htruthy : truthy h = true).
  { destruct (truthy h) eqn:Ht; [reflexivity|]. exfalso.
    assert (Hrej : ∃ e, fst (getHistoricalData env w T) = Rejected e); [|destruct Hrej; congruence].
    revert Hh. unfold getHistoricalData. rewrite fst_bind. simpl.
    destruct (env_set (FMP_API_KEY env)); simpl; [|discriminate].
    rewrite fst_try_catch, fst_bind. unfold http_get. simpl.
    destruct (axios_get w (historical_url env T)) as [data|e0]; [|discriminate].
    destruct (truthy data); simpl; [|discriminate].
    rewrite fst_bind.
    destruct (fst (get_field data "historical")) as [x|e0]; [|discriminate].
    destruct (truthy x) eqn:Hx; simpl; [|discriminate].
    intros [= ->]. congruence. }
  set (msg := match h with
              | VStr _ => "historicalData.slice(...).map is not a function"
              | _ => "historicalData.slice is not a function"
              end).
  assert (Hr : fst (recentData h) = Rejected (new_Error msg)).
  { unfold recentData, msg. rewrite fst_bind.
    destruct h; simpl in *; try discriminate; try reflexivity.
    exfalso. eapply Hna. reflexivity. }
  assert (Hg : fst (getGeminiAnalysis env w T h) = Rejected (new_Error msg)).
  { unfold getGeminiAnalysis. rewrite fst_bind. simpl. rewrite Hkey. simpl.
    rewrite fst_bind, Hr. reflexivity. }
  rewrite (market_pulse_miss env w cache req Hv Hm). fold T.
  rewrite (assemble_rejected_by_sentiment env w T h _ Hh Hg), assemble_trace,
    (getHistoricalData_fulfilled_key env w _ _ Hh), Hh, Hkey, Hr.
  reflexivity.
Qed.

(** ** Failures of the assembly *)

(** X6. Once the three clients have fulfilled, the request succeeds exactly when
    the verdict is not [null] and the history has a first point. Otherwise
    the assembly throws a [TypeError], on [analysis.pulse] or on
    [historicalData[0].close]: the reply is a 500 with its message and the
    cache is left as it was, although the model has already been called. *)
Theorem success_needs_a_verdict_and_a_first_point
  (cache : gmap string entry) (req : request) (days : list value) (verdict : value) :
  let T := toUpperCase (params_ticker req) in
  let out := market_pulse env w cache req in
  ticker_regex_test T = true →
  cache_hit cache T (Date_now w) = None →
  fst (getHistoricalData env w T) = Fulfilled (VArr days) →
  fst (getGeminiAnalysis env w T (VArr days)) = Fulfilled verdict →
  (status out.1.1 = 200%nat ↔ nullish verdict = false ∧ days ≠ [])
  ∧ (nullish verdict = true →
     out.1.1 = Reply 500 (JsonError (message (TypeError_read verdict "pulse")))
     ∧ out.1.2 = cache)
  ∧ (nullish verdict = false → days = [] →
     out.1.1 = Reply 500 (JsonError "Cannot read properties of undefined (reading 'close')")
     ∧ out.1.2 = cache)
  ∧ ∃ recent, HttpPost (GEMINI_API_URL env) (Prompt T recent) ∈ out.2.
Proof.
  intros T out Hv Hm Hh Hg. subst out.
  rewrite (market_pulse_miss env w cache req Hv Hm). fold T.
  pose proof (getHistoricalData_fulfilled_key env w _ _ Hh) as Hkey.
  assert (Hpost : ∃ recent,
    HttpPost (GEMINI_API_URL env) (Prompt T recent) ∈ snd (assemble env w T)).
  { apply getGeminiAnalysis_fulfils in Hg as (Hgk & recent & _ & _ & _ & Hr & _).
    exists recent. rewrite assemble_trace, Hkey, Hh, Hgk, Hr. set_solver. }
  assert (Ha : fst (assemble env w T) =
    if nullish verdict then Rejected (TypeError_read verdict "pulse")
    else match days with
         | [] => Rejected (TypeError_read VUndefined "close")
         | latest :: older => fst (assemble env w T)
         end).
  { destruct (nullish verdict) eqn:Hn.
    - unfold assemble.
      rewrite fst_bind, fst_Promise_all2, Hh, getNewsData_settles, Hkey. simpl.
      rewrite fst_bind, Hg, fst_bind.
      destruct verdict; simpl in *; try discriminate; reflexivity.
    - destruct days as [|latest older]; [|reflexivity].
      unfold assemble.
      rewrite fst_bind, fst_Promise_all2, Hh, getNewsData_settles, Hkey. simpl.
      rewrite fst_bind, Hg.
      destruct (get_field_not_nullish verdict "pulse" Hn) as [p Hp].
      destruct (get_field_not_nullish verdict "reason" Hn) as [re Hre].
      destruct (get_field_not_nullish verdict "confidence" Hn) as [c Hc].
      rewrite fst_bind, Hp. simpl. rewrite fst_bind, Hre. simpl.
      rewrite fst_bind, Hc. simpl. reflexivity. }
  destruct (nullish verdict) eqn:Hn.
  - rewrite Ha. simpl. split; [|split; [|split]].
    + split; [discriminate | intros [? _]; discriminate].
    + auto.
    + discriminate.
    + destruct Hpost as [recent Hpost]. exists recent. exact Hpost.
  - destruct days as [|latest older].
    + rewrite Ha. simpl. split; [|split; [|split]].
      * split; [discriminate | intros [_ ?]; congruence].
      * discriminate.
      * auto.
      * destruct Hpost as [recent Hpost]. exists recent. exact Hpost.
    + assert (Hn' : ∃ n, fst (getNewsData env w T) = Fulfilled n)
        by (rewrite getNewsData_settles, Hkey; eauto).
      destruct Hn' as [n Hnews].
      destruct (assemble_succeeds env w T latest older n verdict Hh Hnews Hg Hn)
        as (p & re & c & close & _ & _ & _ & _ & Hok).
      rewrite Hok. simpl. split; [|split; [|split]].
      * split; [intros _; split; [reflexivity | discriminate] | reflexivity].
      * discriminate.
      * discriminate.
      * destruct Hpost as [recent Hpost]. exists recent. exact Hpost.
Qed.

(** ** The cache across one request *)

(** X7. The handler behaves the same on any two caches that agree on the entry of
    the requested ticker: the reply and the calls are the same and so is the
    entry left for that ticker. Entries of other tickers play no part. *)
Theorem other_tickers_do_not_matter
  (cache1 cache2 : gmap string entry) (req : request) :
  let T := toUpperCase (params_ticker req) in
  let out1 := market_pulse env w cache1 req in
  let out2 := market_pulse env w cache2 req in
  cache1 !! T = cache2 !! T →
  out1.1.1 = out2.1.1 ∧ out1.2 = out2.2 ∧ out1.1.2 !! T = out2.1.2 !! T.
Proof.
  intros T out1 out2 Heq. subst out1 out2. unfold market_pulse. fold T.
  destruct (ticker_regex_test T); simpl; [|auto].
  assert (Hhit : cache_hit cache1 T (Date_now w) = cache_hit cache2 T (Date_now w))
    by (unfold cache_hit; rewrite Heq; reflexivity).
  rewrite Hhit.
  destruct (cache_hit cache2 T (Date_now w)); simpl; [auto|].
  destruct (assemble env w T) as [[r|e] t]; simpl; [|auto].
  rewrite !lookup_insert_eq. auto.
Qed.

(** One request: a reply other than 200 leaves the cache untouched, no entry
    is removed, and an entry found afterwards was there before or holds the
    result of this reply, stamped with the arrival of this request. *)
Lemma cache_step
  (cache : gmap string entry) (req : request) :
  let T := toUpperCase (params_ticker req) in
  let out := market_pulse env w cache req in
  (status out.1.1 ≠ 200%nat → out.1.2 = cache)
  ∧ (∀ k, is_Some (cache !! k) → is_Some (out.1.2 !! k))
  ∧ (∀ k e, out.1.2 !! k = Some e →
       cache !! k = Some e
       ∨ (k = T ∧ ticker_regex_test T = true
          ∧ entry_timestamp e = Date_now w
          ∧ out.1.1 = Reply 200 (JsonResult (entry_data e)))).
Proof.
  intros T out. subst out. unfold market_pulse. fold T.
  destruct (ticker_regex_test T) eqn:Hv; simpl; [|auto].
  destruct (cache_hit cache T (Date_now w)); simpl; [auto|].
  destruct (assemble env w T) as [[r|e] t]; simpl; [|auto].
  split; [congruence|]. split.
  - intros k Hk. destruct (decide (T = k)) as [->|Hne].
    + rewrite lookup_insert_eq. eauto.
    + rewrite lookup_insert_ne by exact Hne. exact Hk.
  - intros k e He. destruct (decide (T = k)) as [<-|Hne].
    + rewrite lookup_insert_eq in He. injection He as <-. right. auto.
    + rewrite lookup_insert_ne in He by exact Hne. auto.
Qed.

End Requests.

(** ** Two requests in a row *)

(** X8. A result assembled on a miss is served again, unchanged and without any
    call, to every later request whose ticker uppercases to the same string
    and that arrives less than 600000 ms after the first one arrived,
    whatever the world and the configuration have become. Nothing is asked
    of the order of the two clock readings. *)
Theorem second_request_is_served_from_the_cache
  `{Engine} (env env' : config) (w w' : world) (cache cache1 : gmap string entry)
  (req req' : request) (r : result) (events : list event) :
  let T := toUpperCase (params_ticker req) in
  ticker_regex_test T = true →
  cache_hit cache T (Date_now w) = None →
  market_pulse env w cache req = (Reply 200 (JsonResult r), cache1, events) →
  toUpperCase (params_ticker req') = T →
  Date_now w' - Date_now w < 600000 →
  market_pulse env' w' cache1 req' = (Reply 200 (JsonResult r), cache1, []).
Proof.
  intros T Hv Hm Hfirst Hsame Hfresh.
  rewrite (market_pulse_miss env w cache req Hv Hm) in Hfirst. fold T in Hfirst.
  destruct (fst (assemble env w T)) as [r'|e]; [|discriminate].
  injection Hfirst as -> <- _.
  unfold market_pulse. rewrite Hsame, Hv. simpl.
  unfold cache_hit. rewrite lookup_insert_eq. simpl.
  destruct (Z.ltb_spec (Date_now w' - Date_now w) 600000); [reflexivity | lia].
Qed.

(** ** Any number of requests *)

Section Runs.
Context `{Engine} (env : config).

Lemma recentData_fulfilled_array (h : value) (recent : list value) :
  fst (recentData h) = Fulfilled recent → ∃ days, h = VArr days.
Proof.
  unfold recentData. rewrite fst_bind.
  destruct h; simpl; try discriminate; eauto.
Qed.

(** A result assembled for a valid ticker is well formed. *)
Lemma assembled_result_is_well_formed (w : world) (T : string) (r : result) :
  ticker_regex_test T = true →
  fst (assemble env w T) = Fulfilled r →
  well_formed_result T r.
Proof.
  intros Hv Ha.
  apply assemble_fulfils in Ha
    as (h & n & a & p & re & c & latest & close & hi
        & Hh & Hn & Ha & Hp & Hre & Hc & Hl & Hcl & Hhi & ->).
  apply getGeminiAnalysis_fulfils in Ha as (_ & recent & _ & _ & _ & Hr & _).
  apply recentData_fulfilled_array in Hr as [days ->].
  simpl in Hl, Hhi. injection Hl as <-. injection Hhi as <-.
  destruct days as [|latest older].
  { simpl in Hcl. discriminate. }
  split; [exact Hv|]. split; [reflexivity|].
  exists (take 20 (latest :: older)), latest, close. simpl.
  repeat split; try assumption; try lia.
  rewrite length_take. lia.
Qed.

Lemma well_formed_step (w : world) (cache : gmap string entry) (req : request) :
  well_formed_cache cache →
  well_formed_cache (market_pulse env w cache req).1.2
  ∧ ∀ r, (market_pulse env w cache req).1.1 = Reply 200 (JsonResult r) →
      well_formed_result (toUpperCase (params_ticker req)) r.
Proof.
  intros Hinv. unfold market_pulse.
  set (T := toUpperCase (params_ticker req)).
  destruct (ticker_regex_test T) eqn:Hv; simpl; [|split; [exact Hinv | discriminate]].
  destruct (cache_hit cache T (Date_now w)) as [data|] eqn:Hhit; simpl.
  - split; [exact Hinv|]. intros r [= <-].
    apply cache_hit_Some in Hhit as (e & He & _ & ->). exact (Hinv _ _ He).
  - destruct (assemble env w T) as [[r|e] t] eqn:Ha; simpl.
    + assert (Hr : well_formed_result T r).
      { apply (assembled_result_is_well_formed w); [exact Hv|]. rewrite Ha. reflexivity. }
      split.
      * intros k e He. destruct (decide (T = k)) as [<-|Hne].
        -- rewrite lookup_insert_eq in He. injection He as <-. exact Hr.
        -- rewrite lookup_insert_ne in He by exact Hne. exact (Hinv _ _ He).
      * intros r' [= <-]. exact Hr.
    + split; [exact Hinv | discriminate].
Qed.

Lemma well_formed_run (requests : list (world * request)) :
  ∀ cache, well_formed_cache cache →
    well_formed_cache (serve env cache requests).2
    ∧ ∀ i w req r,
        requests !! i = Some (w, req) →
        (serve env cache requests).1 !! i = Some (Reply 200 (JsonResult r)) →
        well_formed_result (toUpperCase (params_ticker req)) r.
Proof.
  induction requests as [|[w0 req0] rest IH]; intros cache Hinv.
  - split; [exact Hinv|]. intros i w req r Hi. discriminate.
  - destruct (well_formed_step w0 cache req0 Hinv) as [Hinv' Hreply].
    destruct (IH _ Hinv') as [Hfinal Hrest].
    simpl. split; [exact Hfinal|].
    intros [|i] w req r Hi Hr; simpl in Hi, Hr.
    + injection Hi as <- <-. injection Hr as Hr. exact (Hreply _ Hr).
    + exact (Hrest i w req r Hi Hr).
Qed.

(** X9. Over any sequence of requests served from the empty cache, every 200
    reply, assembled or taken from the cache, names the uppercased ticker of
    its request, carries a history of one to twenty points, and has a last
    price that agrees with the first point of that history. *)
Theorem every_result_sent_is_well_formed
  (requests : list (world * request)) (i : nat) (w : world) (req : request)
  (r : result) :
  requests !! i = Some (w, req) →
  (serve env ∅ requests).1 !! i = Some (Reply 200 (JsonResult r)) →
  well_formed_result (toUpperCase (params_ticker req)) r.
Proof.
  intros Hi Hr.
  assert (Hempty : well_formed_cache ∅) by (intros k e He; discriminate).
  destruct (well_formed_run requests ∅ Hempty) as [_ Hall].
  exact (Hall i w req r Hi Hr).
Qed.

(** X10. The cache is the record of the successes. Over any sequence of requests
    served from any cache: nothing is ever removed; every entry found at the
    end was there at the start or holds exactly the result of a 200 reply of
    the sequence, under the uppercased ticker of that request and stamped
    with its arrival; and every ticker that got a 200 reply is in the cache
    at the end. *)
Theorem cache_is_the_record_of_successes
  (requests : list (world * request)) (cache : gmap string entry) :
  let replies := (serve env cache requests).1 in
  let final := (serve env cache requests).2 in
  (∀ k, is_Some (cache !! k) → is_Some (final !! k))
  ∧ (∀ k e, final !! k = Some e →
       cache !! k = Some e
       ∨ ∃ i w req,
           requests !! i = Some (w, req)
           ∧ toUpperCase (params_ticker req) = k
           ∧ entry_timestamp e = Date_now w
           ∧ replies !! i = Some (Reply 200 (JsonResult (entry_data e))))
  ∧ (∀ i w req r,
       requests !! i = Some (w, req) →
       replies !! i = Some (Reply 200 (JsonResult r)) →
       is_Some (final !! toUpperCase (params_ticker req))).
Proof.
  revert cache. induction requests as [|[w0 req0] rest IH]; intros cache; simpl.
  - split; [auto|]. split; [auto|]. intros i w req r Hi. discriminate.
  - destruct (cache_step env w0 cache req0) as (Hfail & Hkeep & Hnew).
    destruct (IH (market_pulse env w0 cache req0).1.2) as (Hkeep' & Hnew' & Hin').
    split; [|split].
    + intros k Hk. apply Hkeep', Hkeep, Hk.
    + intros k e He. destruct (Hnew' k e He) as [Hmid|(i & w & req & Hi & HT & Hts & Hr)].
      * destruct (Hnew k e Hmid) as [Hold|(-> & _ & Hts & Hr)]; [left; exact Hold|].
        right. exists 0%nat, w0, req0. simpl. rewrite Hr. auto.
      * right. exists (S i), w, req. auto.
    + intros [|i] w req r Hi Hr; simpl in Hi, Hr.
      * injection Hi as <- <-. injection Hr as Hr.
        apply Hkeep'.
        destruct (is_Some_dec ((market_pulse env w0 cache req0).1.2
                               !! toUpperCase (params_ticker req0))) as [Hs|Hn];
          [exact Hs|]. exfalso.
        revert Hr Hn. unfold market_pulse.
        destruct (ticker_regex_test (toUpperCase (params_ticker req0))); simpl;
          [|discriminate].
        destruct (cache_hit cache (toUpperCase (params_ticker req0)) (Date_now w0))
          as [data|] eqn:Hhit; simpl.
        -- intros _ Hn. apply Hn.
           apply cache_hit_Some in Hhit as (e & He & _). eauto.
        -- destruct (assemble env w0 (toUpperCase (params_ticker req0)))
             as [[r'|e] t]; simpl; [|discriminate].
           intros _ Hn. apply Hn. rewrite lookup_insert_eq. eauto.
      * exact (Hin' i w req r Hi Hr).
Qed.

End Runs.

(** * Properties of the page *)

Import Frontend.

(** ** Recent searches *)

Lemma remove_dups_snoc (l : list string) (t : string) :
  remove_dups (l ++ [t]) = filter (fun x => x ≠ t) (remove_dups l) ++ [t].
Proof.
  induction l as [|x l IH]; [reflexivity|].
  simpl. rewrite IH.
  destruct (decide_rel elem_of x (l ++ [t])) as [Hin|Hnin];
    destruct (decide_rel elem_of x l) as [Hin'|Hnin'];
    destruct (decide (x = t)) as [->|Hne].
  - reflexivity.
  - reflexivity.
  - rewrite filter_cons_False by (intros Hn; apply Hn; reflexivity). reflexivity.
  - exfalso. apply elem_of_app in Hin as [Hin|Hin]; [auto|].
    apply list_elem_of_singleton in Hin. auto.
  - exfalso. apply Hnin, elem_of_app. auto.
  - exfalso. apply Hnin, elem_of_app. auto.
  - exfalso. apply Hnin, elem_of_app. right. apply list_elem_of_singleton. reflexivity.
  - rewrite filter_cons_True by exact Hne. reflexivity.
Qed.

(** Cutting a list without repetition to [S n] items before one value is
    filtered out, or not cutting it, gives the same first [n] items. *)
Lemma take_filter_take (l : list string) (t : string) :
  NoDup l → ∀ n,
  take n (filter (fun x => x ≠ t) (take (S n) l)) = take n (filter (fun x => x ≠ t) l).
Proof.
  induction 1 as [|x l Hx Hl IH]; intros n; [reflexivity|].
  destruct n as [|n]; [reflexivity|].
  change (take (S (S n)) (x :: l)) with (x :: take (S n) l).
  destruct (decide (x = t)) as [->|Hne].
  - rewrite !filter_cons_False by (intros Hn; apply Hn; reflexivity).
    assert (Hall : ∀ l' : list string, l' ⊆ l → filter (fun x => x ≠ t) l' = l').
    { intros l' Hsub. induction l' as [|y l' IH']; [reflexivity|].
      rewrite filter_cons_True by (intros ->; apply Hx, Hsub; left).
      rewrite IH'; [reflexivity|]. intros z Hz. apply Hsub. right. exact Hz. }
    rewrite (Hall l) by reflexivity.
    rewrite (Hall (take (S n) l)) by apply subseteq_take.
    rewrite take_take, Nat.min_id. reflexivity.
  - rewrite !filter_cons_True by exact Hne. simpl. f_equal. apply IH.
Qed.

Lemma NoDup_reversed (l : list string) : NoDup l → NoDup (reverse l).
Proof. rewrite reverse_Permutation. auto. Qed.

Lemma NoDup_taken (n : nat) (l : list string) : NoDup l → NoDup (take n l).
Proof.
  intros Hl. revert n. induction Hl as [|x l Hx Hl IH]; intros [|n]; simpl;
    try constructor; [|apply IH].
  intros Hin. apply Hx. exact (subseteq_take n l x Hin).
Qed.

Lemma remove_dups_NoDup (l : list string) : NoDup l → remove_dups l = l.
Proof.
  induction 1 as [|x l Hx Hl IH]; [reflexivity|].
  simpl. destruct (decide_rel elem_of x l); [contradiction|]. rewrite IH. reflexivity.
Qed.

(** X11. Searches that complete one after the other, starting from a stored list
    without repetition of at most five tickers, leave the five most recent
    distinct tickers, the most recent first: the stored list read backwards,
    followed by the searches in order, each ticker kept at its last
    occurrence, read backwards again and cut to five. *)
Theorem recent_searches_are_the_five_latest (stored tickers : list string) :
  NoDup stored → (length stored ≤ 5)%nat →
  let shown := fold_left updateRecentSearches tickers stored in
  shown = take 5 (reverse (remove_dups (reverse stored ++ tickers)))
  ∧ NoDup shown
  ∧ (length shown ≤ 5)%nat.
Proof.
  intros Hnd Hlen shown.
  assert (Heq : shown = take 5 (reverse (remove_dups (reverse stored ++ tickers)))).
  { subst shown. induction tickers as [|t tickers IH] using rev_ind.
    - simpl. rewrite app_nil_r, remove_dups_NoDup by (apply NoDup_reversed; exact Hnd).
      rewrite reverse_involutive, take_ge by exact Hlen. reflexivity.
    - rewrite fold_left_app. simpl. rewrite IH. unfold updateRecentSearches.
      rewrite app_assoc, remove_dups_snoc, reverse_snoc, <- filter_reverse.
      simpl. f_equal. apply take_filter_take.
      apply NoDup_reversed, NoDup_remove_dups. }
  split; [exact Heq|]. rewrite Heq. split.
  - apply NoDup_taken, NoDup_reversed, NoDup_remove_dups.
  - rewrite length_take. lia.
Qed.

(** X12. Searching again the ticker that was searched last changes nothing,
    whatever the list was before. *)
Theorem repeated_search_changes_nothing (recentSearches : list string) (t : string) :
  updateRecentSearches (updateRecentSearches recentSearches t) t
  = updateRecentSearches recentSearches t.
Proof.
  unfold updateRecentSearches. simpl.
  rewrite filter_cons_False by (intros Hn; apply Hn; reflexivity).
  f_equal.
  set (kept := filter (fun x => x ≠ t) recentSearches).
  assert (Hkept : filter (fun x => x ≠ t) (take 4 kept) = take 4 kept).
  { assert (Hgen : ∀ l' : list string, l' ⊆ kept → filter (fun x => x ≠ t) l' = l').
    { intros l' Hsub. induction l' as [|y l' IH']; [reflexivity|].
      rewrite filter_cons_True.
      - rewrite IH'; [reflexivity|]. intros z Hz. apply Hsub. right. exact Hz.
      - assert (Hy : y ∈ kept) by (apply Hsub; left).
        apply list_elem_of_filter in Hy as [Hy _]. exact Hy. }
    apply Hgen, subseteq_take. }
  rewrite Hkept, take_take. reflexivity.
Qed.

(** ** Momentum *)

(** Every number is NaN, one of the two zeros, or of a definite sign. *)
Lemma float_cases (c : float) :
  c = nan ∨ c = 0%float ∨ c = (-0)%float
  ∨ ((0 <? c)%float = true ∧ (c <? 0)%float = false ∧ is_nan c = false)
  ∨ ((0 <? c)%float = false ∧ (c <? 0)%float = true ∧ is_nan c = false).
Proof.
  unfold is_nan. rewrite !FloatAxioms.ltb_spec, FloatAxioms.eqb_spec.
  assert (Hc : c = SF2Prim (Prim2SF c)) by (symmetry; apply SF2Prim_Prim2SF).
  change (Prim2SF 0) with (S754_zero false).
  destruct (Prim2SF c) as [[|]|[|]| |[|] m e].
  - right. right. left. exact Hc.
  - right. left. exact Hc.
  - right. right. right. right. auto.
  - right. right. right. left. auto.
  - left. exact Hc.
  - right. right. right. right. unfold SFltb, SFeqb. simpl.
    rewrite Z.compare_refl, Pos.compare_cont_refl. auto.
  - right. right. right. left. unfold SFltb, SFeqb. simpl.
    rewrite Z.compare_refl, Pos.compare_cont_refl. auto.
Qed.

(** On NaN the sum stays NaN. *)
Lemma score_from_nan (cs : list float) :
  fold_left (fun acc c => (acc + Math_sign c)%float) cs nan = nan.
Proof.
  induction cs as [|c cs IH]; [reflexivity|]. simpl.
  assert (Hstep : (nan + Math_sign c)%float = nan); [|rewrite Hstep; exact IH].
  unfold Math_sign.
  destruct (float_cases c) as [->|[->|[->|[(Hp & Hn & _)|(Hp & Hn & _)]]]];
    rewrite ?Hp, ?Hn; reflexivity.
Qed.

(** The sum of at most five signs is exact: started from the integer [z], it
    ends on [z] plus the number of rises minus the number of falls, unless a
    change is NaN. *)
Lemma score_of_signs (cs : list float) :
  let FZ := fun z : Z => (of_uint63 (Uint63.of_Z (z + 5)) - 5)%float in
  ∀ z : Z, -5 ≤ z - Z.of_nat (length cs) → z + Z.of_nat (length cs) ≤ 5 →
  fold_left (fun acc c => (acc + Math_sign c)%float) cs (FZ z)
  = if existsb is_nan cs then nan
    else FZ (z + Z.of_nat (length (List.filter (fun c => (0 <? c)%float) cs))
             - Z.of_nat (length (List.filter (fun c => (c <? 0)%float) cs))).
Proof.
  intros FZ. induction cs as [|c cs IH]; intros z Hlo Hhi.
  - simpl. f_equal. lia.
  - simpl in Hlo, Hhi.
    assert (Hz : z = -4 ∨ z = -3 ∨ z = -2 ∨ z = -1 ∨ z = 0
                 ∨ z = 1 ∨ z = 2 ∨ z = 3 ∨ z = 4) by lia.
    cbn [fold_left List.filter existsb]. unfold Math_sign.
    destruct (float_cases c) as [->|[->|[->|[(Hp & Hn & Hnan)|(Hp & Hn & Hnan)]]]].
    + assert (Hstep : (FZ z + nan)%float = nan)
        by (repeat (destruct Hz as [->|Hz]; [reflexivity|]); subst z; reflexivity).
      change ((if (0 <? nan)%float then 1 else if (nan <? 0)%float then -1 else nan)%float)
        with nan.
      rewrite Hstep. apply score_from_nan.
    + assert (Hstep : (FZ z + 0)%float = FZ z)
        by (repeat (destruct Hz as [->|Hz]; [reflexivity|]); subst z; reflexivity).
      change ((if (0 <? 0)%float then 1 else if (0 <? 0)%float then -1 else 0)%float)
        with 0%float.
      rewrite Hstep. change (is_nan 0) with false. change (0 <? 0)%float with false.
      cbn [orb]. apply IH; lia.
    + assert (Hstep : (FZ z + -0)%float = FZ z)
        by (repeat (destruct Hz as [->|Hz]; [reflexivity|]); subst z; reflexivity).
      change ((if (0 <? -0)%float then 1 else if (-0 <? 0)%float then -1 else -0)%float)
        with (-0)%float.
      rewrite Hstep. change (is_nan (-0)) with false.
      change (0 <? -0)%float with false. change (-0 <? 0)%float with false.
      cbn [orb]. apply IH; lia.
    + assert (Hstep : (FZ z + 1)%float = FZ (z + 1))
        by (repeat (destruct Hz as [->|Hz]; [reflexivity|]); subst z; reflexivity).
      rewrite Hp, Hn, Hnan, Hstep. cbn [orb length]. rewrite IH by lia.
      destruct (existsb is_nan cs); [reflexivity|]. f_equal. lia.
    + assert (Hstep : (FZ z + -1)%float = FZ (z - 1))
        by (repeat (destruct Hz as [->|Hz]; [reflexivity|]); subst z; reflexivity).
      rewrite Hp, Hn, Hnan, Hstep. cbn [orb length]. rewrite IH by lia.
      destruct (existsb is_nan cs); [reflexivity|]. f_equal. lia.
Qed.

(** The label of five changes, from how many rose and how many fell. *)
Lemma label_of_five (cs : list float) :
  length cs = 5%nat →
  momentum_label (fold_left (fun acc c => (acc + Math_sign c)%float) cs 0%float)
  = let ups := length (List.filter (fun c => (0 <? c)%float) cs) in
    let downs := length (List.filter (fun c => (c <? 0)%float) cs) in
    if existsb is_nan cs then ("Negative", "text-red-500")
    else if (downs + 3 <=? ups)%nat then ("Strong Positive", "text-green-400")
    else if (downs <? ups)%nat then ("Positive", "text-green-500")
    else if (downs =? ups)%nat then ("Neutral", "text-gray-400")
    else ("Negative", "text-red-500").
Proof.
  intros Hlen.
  assert (Hscore :
    fold_left (fun acc c => (acc + Math_sign c)%float) cs 0%float
    = if existsb is_nan cs then nan
      else (of_uint63
              (Uint63.of_Z
                 (0 + Z.of_nat (length (List.filter (fun c => (0 <? c)%float) cs))
                  - Z.of_nat (length (List.filter (fun c => (c <? 0)%float) cs)) + 5))
            - 5)%float).
  { apply (score_of_signs cs 0); lia. }
  rewrite Hscore. clear Hscore. cbv zeta.
  pose proof (filter_length_le (fun c => (0 <? c)%float) cs) as Hups.
  pose proof (filter_length_le (fun c => (c <? 0)%float) cs) as Hdowns.
  set (ups := length (List.filter (fun c => (0 <? c)%float) cs)) in *.
  set (downs := length (List.filter (fun c => (c <? 0)%float) cs)) in *.
  destruct (existsb is_nan cs); [reflexivity|].
  assert (Hd : ∃ d, 0 + Z.of_nat ups - Z.of_nat downs = d
                    ∧ (d = -5 ∨ d = -4 ∨ d = -3 ∨ d = -2 ∨ d = -1 ∨ d = 0
                       ∨ d = 1 ∨ d = 2 ∨ d = 3 ∨ d = 4 ∨ d = 5)).
  { eexists. split; [reflexivity|]. lia. }
  destruct Hd as (d & Hd & Hcases). rewrite Hd.
  destruct (Nat.leb_spec (downs + 3) ups), (Nat.ltb_spec downs ups),
    (Nat.eqb_spec downs ups);
    repeat (destruct Hcases as [->|Hcases]; [first [reflexivity | lia]|]);
    first [rewrite Hcases; reflexivity | lia].
Qed.

Section Momentum.
Context `{Engine}.

Lemma for_each_ext {A B} (f g : A → async B) (l : list A) :
  Forall (fun a => f a = g a) l → for_each f l = for_each g l.
Proof.
  induction 1 as [|a l Ha _ IH]; [reflexivity|].
  simpl. rewrite Ha, IH. reflexivity.
Qed.

Lemma for_each_all_fulfil {A B} (f : A → async B) (l : list A) :
  (∃ out, fst (for_each f l) = Fulfilled out)
  ↔ Forall (fun a => ∃ b, fst (f a) = Fulfilled b) l.
Proof.
  split.
  - intros [out Hout]. apply for_each_fulfilled in Hout.
    induction Hout as [|a b l l' Hab _ IH]; constructor; eauto.
  - induction 1 as [|a l [b Hb] _ [bs Hbs]].
    + exists []. reflexivity.
    + exists (b :: bs). apply for_each_fulfilled. constructor; [exact Hb|].
      apply for_each_fulfilled. exact Hbs.
Qed.

(** A change can be computed exactly when neither of its two days is
    [undefined] or [null]. *)
Lemma day_change_fulfils (days : list value) (i : nat) :
  (∃ r, fst (day_change days i) = Fulfilled r)
  ↔ nullish (default VUndefined (days !! i)) = false
    ∧ nullish (default VUndefined (days !! S i)) = false.
Proof.
  unfold day_change. split.
  - intros [r Hr]. revert Hr. rewrite fst_bind.
    destruct (fst (get_field (default VUndefined (days !! i)) "close"))
      as [c|e] eqn:Hc; [|discriminate].
    rewrite fst_bind.
    destruct (fst (get_field (default VUndefined (days !! S i)) "close"))
      as [c'|e] eqn:Hc'; [|discriminate].
    intros _. split; eapply get_field_fulfilled; eassumption.
  - intros [Ht Hy].
    destruct (get_field_not_nullish _ "close" Ht) as [c Hc].
    destruct (get_field_not_nullish _ "close" Hy) as [c' Hc'].
    destruct (get_field_not_nullish _ "date" Ht) as [d Hd].
    rewrite fst_bind, Hc. simpl. rewrite fst_bind, Hc'. simpl.
    rewrite fst_bind, Hd. simpl. eauto.
Qed.

Lemma day_change_of_prefix (days : list value) (i : nat) :
  (i < 5)%nat → day_change days i = day_change (take 6 days) i.
Proof.
  intros Hi. unfold day_change.
  rewrite !lookup_take_lt by lia. reflexivity.
Qed.

Lemma MomentumDisplay_fulfilled (days : list value) (m : momentum) :
  fst (MomentumDisplay (Some days)) = Fulfilled (Some m)
  ↔ (6 ≤ length days)%nat
    ∧ ∃ forward, fst (for_each (day_change days) (seq 0 5)) = Fulfilled forward
                 ∧ m = momentum_of_returns (reverse forward).
Proof.
  unfold MomentumDisplay.
  destruct (Nat.ltb_spec (length days) 6) as [Hlt|Hge].
  - split; [discriminate | intros [Hge _]; lia].
  - rewrite fst_bind.
    destruct (fst (for_each (day_change days) (seq 0 5))) as [forward|e].
    + simpl. split.
      * intros [= <-]. eauto.
      * intros (_ & forward' & [= <-] & ->). reflexivity.
    + split; [discriminate | intros (_ & forward' & Hf & _); discriminate].
Qed.

Lemma score_of_changes (l : list day_return) (acc : float) :
  fold_left (fun acc r => (acc + Math_sign (change r))%float) l acc
  = fold_left (fun acc c => (acc + Math_sign c)%float) (change <$> l) acc.
Proof.
  revert acc. induction l as [|r l IH]; intros acc; [reflexivity|]. simpl. apply IH.
Qed.

(** X13. The guard of [MomentumDisplay]. Nothing is drawn exactly when the
    history is missing or has fewer than six points. With six points or more
    the component depends on the first six only; it throws exactly when one
    of those six is [undefined] or [null], and otherwise its five returns
    are the changes at the indices 4, 3, 2, 1, 0, the oldest first. *)
Theorem momentum_needs_six_points (history : option (list value)) :
  (fst (MomentumDisplay history) = Fulfilled None
   ↔ ∀ days, history = Some days → (length days < 6)%nat)
  ∧ ∀ days, history = Some days → (6 ≤ length days)%nat →
      MomentumDisplay history = MomentumDisplay (Some (take 6 days))
      ∧ ((∃ m, fst (MomentumDisplay history) = Fulfilled (Some m))
         ↔ Forall (fun day => nullish day = false) (take 6 days))
      ∧ ∀ m, fst (MomentumDisplay history) = Fulfilled (Some m) →
          Forall2 (fun i r => fst (day_change days i) = Fulfilled r)
                  [4; 3; 2; 1; 0]%nat (returns m).
Proof.
  split.
  - destruct history as [days|]; unfold MomentumDisplay.
    + destruct (Nat.ltb_spec (length days) 6) as [Hlt|Hge].
      * split; [intros _ days' [= <-]; exact Hlt | reflexivity].
      * split.
        -- rewrite fst_bind.
           destruct (fst (for_each (day_change days) (seq 0 5))); simpl; discriminate.
        -- intros Hall. specialize (Hall days eq_refl). lia.
    + split; [intros _ days; discriminate | reflexivity].
  - intros days -> Hlen. split; [|split].
    + unfold MomentumDisplay.
      rewrite length_take, Nat.min_l by exact Hlen.
      destruct (Nat.ltb_spec (length days) 6) as [Hlt|_]; [lia|].
      rewrite (for_each_ext (day_change days) (day_change (take 6 days)) (seq 0 5));
        [reflexivity|].
      repeat constructor; apply day_change_of_prefix; lia.
    + transitivity (∃ forward,
        fst (for_each (day_change days) (seq 0 5)) = Fulfilled forward).
      { split.
        - intros [m Hm]. apply MomentumDisplay_fulfilled in Hm as (_ & f & Hf & _).
          eauto.
        - intros [f Hf]. exists (momentum_of_returns (reverse f)).
          apply MomentumDisplay_fulfilled. eauto. }
      rewrite for_each_all_fulfil.
      destruct days as [|d0 [|d1 [|d2 [|d3 [|d4 [|d5 rest]]]]]]; simpl in Hlen; try lia.
      simpl. rewrite !Forall_cons, !Forall_nil, !day_change_fulfils. simpl. tauto.
    + intros m Hm. apply MomentumDisplay_fulfilled in Hm as (_ & f & Hf & ->).
      apply for_each_fulfilled in Hf.
      apply Forall2_reverse in Hf. exact Hf.
Qed.

(** X14. The label of the momentum. Whenever the component draws, it has five
    returns, and the label and its colour are decided by the signs of the
    five changes alone: [Negative] as soon as one change is NaN, whatever
    the others are; otherwise [Strong Positive] when the rises outnumber the
    falls by three or more, [Positive] when they outnumber them,
    [Neutral] when they are as many, [Negative] when they are fewer. *)
Theorem momentum_label_counts_signs (days : list value) (m : momentum) :
  fst (MomentumDisplay (Some days)) = Fulfilled (Some m) →
  let changes := change <$> returns m in
  let ups := length (List.filter (fun c => (0 <? c)%float) changes) in
  let downs := length (List.filter (fun c => (c <? 0)%float) changes) in
  length changes = 5%nat
  ∧ (momentumText m, momentumColor m)
    = if existsb is_nan changes then ("Negative", "text-red-500")
      else if (downs + 3 <=? ups)%nat then ("Strong Positive", "text-green-400")
      else if (downs <? ups)%nat then ("Positive", "text-green-500")
      else if (downs =? ups)%nat then ("Neutral", "text-gray-400")
      else ("Negative", "text-red-500").
Proof.
  intros Hm. apply MomentumDisplay_fulfilled in Hm as (_ & f & Hf & ->).
  apply for_each_fulfilled, Forall2_length in Hf. simpl in Hf.
  cbv zeta. cbn [returns momentumText momentumColor momentum_of_returns].
  assert (Hlen : length (change <$> reverse f) = 5%nat)
    by (rewrite length_fmap, length_reverse; congruence).
  split; [exact Hlen|].
  rewrite <- surjective_pairing, score_of_changes.
  exact (label_of_five _ Hlen).
Qed.

End Momentum.

(** * The further properties at work *)

(** A 502 of the model whose body is [null]: the [catch] block throws while
    it builds its log line. With a 429 that carries an error object the
    fixed message comes out. *)
Lemma sentiment_errors_are_masked_witness :
  env_set (GEMINI_API_KEY env) = true
  ∧ fst (recentData (VArr days)) = Fulfilled (map day (seq 0 20))
  ∧ fst (getGeminiAnalysis env model_null_body "AAPL" (VArr days))
    = Rejected (TypeError_read VNull "error")
  ∧ (TypeError_read VNull "error" = new_Error "Failed to get analysis from Gemini API."
     ∨ ∃ e0 data,
         axios_post model_null_body (GEMINI_API_URL env)
                    (Prompt "AAPL" (map day (seq 0 20))) = Rejected e0
         ∧ response e0 = Some data
         ∧ nullish data = true
         ∧ TypeError_read VNull "error" = TypeError_read data "error").
Proof.
  do 3 (split; [vm_compute; reflexivity|]).
  apply (sentiment_errors_are_masked (H := reference_engine) env model_null_body
           "AAPL" (VArr days) (map day (seq 0 20)) (TypeError_read VNull "error"));
    vm_compute; reflexivity.
Defined.

Example null_body_is_a_500 :
  market_pulse env model_null_body ∅ AAPL
  = (Reply 500 (JsonError "Cannot read properties of null (reading 'error')"), ∅,
     expected_events).
Proof. vm_compute. reflexivity. Qed.

Lemma missing_gemini_key_fails_after_the_fetch_witness :
  ticker_regex_test (toUpperCase (params_ticker AAPL)) = true
  ∧ cache_hit ∅ (toUpperCase (params_ticker AAPL)) (Date_now all_up) = None
  ∧ fst (getHistoricalData env_without_gemini all_up "AAPL") = Fulfilled (VArr days)
  ∧ env_set (GEMINI_API_KEY env_without_gemini) = false
  ∧ market_pulse env_without_gemini all_up ∅ AAPL
    = (Reply 500 (JsonError "Gemini API key not configured."), ∅,
       [Entered_getHistoricalData "AAPL";
        HttpGet (historical_url env_without_gemini "AAPL");
        Entered_getNewsData "AAPL";
        HttpGet (news_url env_without_gemini "AAPL");
        Entered_getGeminiAnalysis "AAPL" (VArr days)]).
Proof.
  do 4 (split; [vm_compute; reflexivity|]).
  apply (missing_gemini_key_fails_after_the_fetch (H := reference_engine)
           env_without_gemini all_up ∅ AAPL (VArr days));
    vm_compute; reflexivity.
Defined.

Lemma history_must_be_an_array_witness :
  ticker_regex_test (toUpperCase (params_ticker AAPL)) = true
  ∧ cache_hit ∅ (toUpperCase (params_ticker AAPL)) (Date_now history_as_object) = None
  ∧ fst (getHistoricalData env history_as_object "AAPL")
    = Fulfilled (VObj [("2024-03-28", day 0)])
  ∧ env_set (GEMINI_API_KEY env) = true
  ∧ market_pulse env history_as_object ∅ AAPL
    = (Reply 500 (JsonError "historicalData.slice is not a function"), ∅,
       [Entered_getHistoricalData "AAPL";
        HttpGet (historical_url env "AAPL");
        Entered_getNewsData "AAPL";
        HttpGet (news_url env "AAPL");
        Entered_getGeminiAnalysis "AAPL" (VObj [("2024-03-28", day 0)])]).
Proof.
  do 4 (split; [vm_compute; reflexivity|]).
  apply (history_must_be_an_array (H := reference_engine) env history_as_object ∅ AAPL
           (VObj [("2024-03-28", day 0)]));
    first [vm_compute; reflexivity | intros items; discriminate].
Defined.

Lemma success_needs_a_verdict_and_a_first_point_witness :
  ticker_regex_test (toUpperCase (params_ticker AAPL)) = true
  ∧ cache_hit ∅ (toUpperCase (params_ticker AAPL)) (Date_now null_verdict) = None
  ∧ fst (getHistoricalData env null_verdict "AAPL") = Fulfilled (VArr days)
  ∧ fst (getGeminiAnalysis env null_verdict "AAPL" (VArr days)) = Fulfilled VNull
  ∧ status (replied (market_pulse env null_verdict ∅ AAPL)) ≠ 200%nat
  ∧ replied (market_pulse env null_verdict ∅ AAPL)
    = Reply 500 (JsonError (message (TypeError_read VNull "pulse")))
  ∧ cache_after (market_pulse env null_verdict ∅ AAPL) = ∅
  ∧ ∃ recent, HttpPost (GEMINI_API_URL env) (Prompt "AAPL" recent)
              ∈ (market_pulse env null_verdict ∅ AAPL).2.
Proof.
  do 4 (split; [vm_compute; reflexivity|]).
  destruct (success_needs_a_verdict_and_a_first_point (H := reference_engine)
              env null_verdict ∅ AAPL days VNull)
    as (Hiff & Hnull & _ & Hpost); try (vm_compute; reflexivity).
  split; [intros Hok; apply Hiff in Hok as [Hn _]; discriminate|].
  destruct (Hnull eq_refl) as [Hreply Hcache].
  split; [exact Hreply|]. split; [exact Hcache | exact Hpost].
Defined.

Lemma other_tickers_do_not_matter_witness :
  warm !! "AAPL" = warm_and_more !! "AAPL"
  ∧ replied (market_pulse env (outage 1000) warm AAPL)
    = replied (market_pulse env (outage 1000) warm_and_more AAPL)
  ∧ (market_pulse env (outage 1000) warm AAPL).2
    = (market_pulse env (outage 1000) warm_and_more AAPL).2
  ∧ cache_after (market_pulse env (outage 1000) warm AAPL) !! "AAPL"
    = cache_after (market_pulse env (outage 1000) warm_and_more AAPL) !! "AAPL".
Proof.
  split; [vm_compute; reflexivity|].
  apply (other_tickers_do_not_matter (H := reference_engine) env (outage 1000)
           warm warm_and_more AAPL).
  vm_compute. reflexivity.
Defined.

(** One millisecond before the entry goes stale, in the middle of an outage
    and with the provider key gone, the second request is still answered. *)
Lemma second_request_is_served_from_the_cache_witness :
  ticker_regex_test (toUpperCase (params_ticker AAPL)) = true
  ∧ cache_hit ∅ (toUpperCase (params_ticker AAPL)) (Date_now all_up) = None
  ∧ market_pulse env all_up ∅ AAPL
    = (Reply 200 (JsonResult expected), warm, expected_events)
  ∧ toUpperCase "Aapl" = toUpperCase (params_ticker AAPL)
  ∧ Date_now (outage 599999) - Date_now all_up < 600000
  ∧ market_pulse env_without_fmp (outage 599999) warm {| params_ticker := "Aapl" |}
    = (Reply 200 (JsonResult expected), warm, []).
Proof.
  do 5 (split; [vm_compute; reflexivity|]).
  apply (second_request_is_served_from_the_cache (H := reference_engine)
           env env_without_fmp all_up (outage 599999) ∅ warm AAPL
           {| params_ticker := "Aapl" |} expected expected_events);
    vm_compute; reflexivity.
Defined.

(** The replies of the morning: assembled, served from the cache, refused,
    failed. *)
Example morning_replies :
  (serve env ∅ morning).1
  = [Reply 200 (JsonResult expected);
     Reply 200 (JsonResult expected);
     Reply 400 (JsonError "Invalid ticker format.");
     Reply 500 (JsonError "getaddrinfo ENOTFOUND")]
  ∧ (serve env ∅ morning).2 = warm.
Proof. split; vm_compute; reflexivity. Qed.

Lemma every_result_sent_is_well_formed_witness :
  morning !! 1%nat = Some (outage 1000, {| params_ticker := "Aapl" |})
  ∧ (serve env ∅ morning).1 !! 1%nat = Some (Reply 200 (JsonResult expected))
  ∧ well_formed_result (toUpperCase "Aapl") expected.
Proof.
  do 2 (split; [vm_compute; reflexivity|]).
  apply (every_result_sent_is_well_formed (H := reference_engine) env morning 1
           (outage 1000) {| params_ticker := "Aapl" |} expected);
    vm_compute; reflexivity.
Defined.

(** ** The page *)

Lemma recent_searches_are_the_five_latest_witness :
  NoDup stored_searches
  ∧ (length stored_searches ≤ 5)%nat
  ∧ fold_left updateRecentSearches searches stored_searches
    = ["TSLA"; "AMZN"; "GOOG"; "NVDA"; "AAPL"].
Proof.
  assert (Hnd : NoDup stored_searches)
    by (apply (bool_decide_unpack (NoDup stored_searches)); vm_compute; exact I).
  assert (Hlen : (length stored_searches ≤ 5)%nat) by (vm_compute; lia).
  split; [exact Hnd|]. split; [exact Hlen|].
  destruct (recent_searches_are_the_five_latest stored_searches searches Hnd Hlen)
    as [Hshown _].
  rewrite Hshown. vm_compute. reflexivity.
Defined.

(** Five rising days. *)
Lemma momentum_label_counts_signs_witness :
  ∃ m, fst (MomentumDisplay (Some days)) = Fulfilled (Some m)
       ∧ length (change <$> returns m) = 5%nat
       ∧ (momentumText m, momentumColor m) = ("Strong Positive", "text-green-400").
Proof.
  eexists. split; [vm_compute; reflexivity|].
  apply (momentum_label_counts_signs (H := reference_engine) days).
  vm_compute. reflexivity.
Defined.

(** One day without a [close] among the first six: two changes are NaN and
    the momentum reads [Negative], although the three other changes are
    rises. *)
Example a_gap_reads_negative :
  ∃ m, fst (MomentumDisplay (Some days_with_a_gap)) = Fulfilled (Some m)
       ∧ map (fun r => is_nan (change r)) (returns m) = [false; false; true; true; false]
       ∧ map (fun r => (0 <? change r)%float) (returns m)
         = [true; true; false; false; true]
       ∧ momentumText m = "Negative".
Proof. eexists. repeat split; vm_compute; reflexivity. Qed.
